(** * pyalgogem: the HDF5 price store and the backtest Dataset

    A shallow embedding of
      - [pyalgogem/data/_data_helpers.py]   (module [DataHelpers]),
      - [pyalgogem/data/_access_hdf5.py]    (module [AccessHdf5]),
      - [pyalgogem/base/algo_env.py]        (module [AlgoEnv]),
      - [pyalgogem/backtest/_dataset.py]    (module [Backtest]),
    followed by the properties of the specification that concern them.

    Python is dynamically typed and the code branches on run-time types
    ([isinstance], [type(..) ==], [.upper()]), so arguments are values of a
    small universe of Python values.  A call either returns or raises; the
    state it has changed before raising stays changed.  Both are explicit in
    the monad [M]. *)

From Stdlib Require Import ZArith List Bool Ascii String Lia.
From Stdlib Require Import PrimFloat SpecFloat FloatOps FloatAxioms.
From stdpp Require Import gmap strings pretty.
Import ListNotations.

Local Open Scope string_scope.

(** ** Python values, exceptions and the state monad *)

(** The scalar values whose [str()] is fixed by the language. *)
Inductive atom :=
| ANone
| ABool (b : bool)
| AInt (z : Z)
| AStr (s : string).

(** Scalars together with the two [datetime] classes the code tests for.
    A [datetime.datetime] is a number of seconds, a [datetime.date] a number
    of days. *)
Inductive pyval :=
| PAtom (a : atom)
| PDatetime (t : Z)
| PDate (d : Z).

Abbreviation PNone := (PAtom ANone).

Inductive exn :=
| ValueError (msg : string)
| TypeError
| AttributeError
| KeyError (key : string)
| IOError
| NoSuchNodeError.

Inductive result (A : Type) :=
| Ok (a : A)
| Raise (e : exn).
Arguments Ok {A} a.
Arguments Raise {A} e.

(** A computation over a mutable state [S] that may raise. *)
Definition M (S A : Type) : Type := S -> result A * S.

Definition ret {S A} (a : A) : M S A := fun s => (Ok a, s).

Definition bind {S A B} (m : M S A) (k : A -> M S B) : M S B :=
  fun s =>
    match m s with
    | (Ok a, s') => k a s'
    | (Raise e, s') => (Raise e, s')
    end.

Definition raise {S A} (e : exn) : M S A := fun s => (Raise e, s).

Definition gets {S A} (f : S -> A) : M S A := fun s => (Ok (f s), s).

Definition modify {S} (f : S -> S) : M S unit := fun s => (Ok tt, f s).

(** [lift r]: a pure step that may raise. *)
Definition lift {S A} (r : result A) : M S A := fun s => (r, s).

(** [try: body except: handler] with a bare [except]: every exception of
    [body] is caught; the handler runs in the state the body left. *)
Definition try_except {S A} (body : M S A) (handler : M S A) : M S A :=
  fun s =>
    match body s with
    | (Ok a, s') => (Ok a, s')
    | (Raise _, s') => handler s'
    end.

(** [with ... as f: body]: [exit] runs however the body ends, and the
    result of the body, returned or raised, stays. *)
Definition with_exit {S A} (body : M S A) (exit : S -> S) : M S A :=
  fun s =>
    match body s with
    | (r, s') => (r, exit s')
    end.

Notation "x <- m ;; k" := (bind m (fun x => k))
  (at level 100, m at next level, right associativity).
Notation "m ;;; k" := (bind m (fun _ => k))
  (at level 100, right associativity).

(** [str(v)] for a scalar. *)
Definition py_str (a : atom) : string :=
  match a with
  | ANone => "None"
  | ABool true => "True"
  | ABool false => "False"
  | AInt z => pretty z
  | AStr s => s
  end.

(** [c.upper()] on one ASCII character. *)
Definition upper_ascii (c : ascii) : ascii :=
  let n := nat_of_ascii c in
  if (97 <=? n)%nat && (n <=? 122)%nat then ascii_of_nat (n - 32) else c.

Fixpoint upper_string (s : string) : string :=
  match s with
  | EmptyString => EmptyString
  | String c r => String (upper_ascii c) (upper_string r)
  end.

(** [v.upper()]: only [str] has the method. *)
Definition py_upper (v : atom) : result string :=
  match v with
  | AStr s => Ok (upper_string s)
  | _ => Raise AttributeError
  end.

(** ** data/_data_helpers.py *)
Module DataHelpers.

(** [name[-3:]]: the last three characters, the whole string when it is
    shorter. *)
Definition last3 (name : string) : string :=
  substring (String.length name - 3) 3 name.

(** [ensure_hdf5(name)]. *)
Definition ensure_hdf5 (name : atom) : result string :=
  match name with
  | AStr s => Ok (if String.eqb (last3 s) ".h5" then s else s ++ ".h5")
  | _ => Raise (ValueError "Please enter a valid name")
  end.

(** [ensure_datetime(datetime)]: the exact type is [datetime] or [date]. *)
Definition ensure_datetime (datetime : pyval) : bool :=
  match datetime with
  | PDatetime _ | PDate _ => true
  | PAtom _ => false
  end.

End DataHelpers.

(** ** data/_access_hdf5.py *)
Module AccessHdf5.
Import DataHelpers.

(** One row of a price table: the timestamp of the index and the five
    numeric fields. *)
Record PriceRecord := {
  timestamp : Z;
  p_open : float;
  p_high : float;
  p_low : float;
  p_close : float;
  p_volume : float
}.

(** A price table ([DataFrame] with a [DatetimeIndex]) is the list of its
    rows, in the order of the frame. *)
Definition DataFrame := list PriceRecord.

(** The [data] argument of [append_to_datafile]: a [DataFrame] or any other
    value. *)
Inductive pydata :=
| IsDataFrame (df : DataFrame)
| NotDataFrame (v : pyval).

(** An HDF5 file: the groups [/BTC] and [/ETH], each absent or holding the
    rows of its time series. *)
Record h5file := {
  BTC : option (list PriceRecord);
  ETH : option (list PriceRecord)
}.

Inductive mode := ModeR | ModeA.

Definition mode_eqb (a b : mode) : bool :=
  match a, b with
  | ModeR, ModeR | ModeA, ModeA => true
  | _, _ => false
  end.

(** What the functions act on: the files by name, the lines printed so far,
    the calls of [tb.open_file] made so far (oldest first), and the handles
    that are open (newest first): PyTables keeps every open file in a
    registry until it is closed. *)
Record world := {
  files : gmap string h5file;
  stdout : list string;
  opened : list (string * mode);
  handles : list (string * mode)
}.

Definition printed (line : string) (w : world) : world :=
  {| files := files w; stdout := stdout w ++ [line]; opened := opened w;
     handles := handles w |}.

Definition print (line : string) : M world unit := modify (printed line).

Definition set_files (fs : gmap string h5file) (w : world) : world :=
  {| files := fs; stdout := stdout w; opened := opened w;
     handles := handles w |}.

Definition logged (file : string) (m : mode) (w : world) : world :=
  {| files := files w; stdout := stdout w;
     opened := opened w ++ [(file, m)]; handles := handles w |}.

Definition log_open (file : string) (m : mode) : M world unit :=
  modify (logged file m).

(** A handle of [file] in mode [m] is open from now on. *)
Definition held (file : string) (m : mode) (w : world) : world :=
  {| files := files w; stdout := stdout w; opened := opened w;
     handles := (file, m) :: handles w |}.

Fixpoint drop_handle (file : string) (m : mode) (hs : list (string * mode))
  : list (string * mode) :=
  match hs with
  | [] => []
  | h :: rest =>
      if String.eqb (fst h) file && mode_eqb (snd h) m then rest
      else h :: drop_handle file m rest
  end.

(** The newest handle of [file] in mode [m] is closed. *)
Definition released (file : string) (m : mode) (w : world) : world :=
  {| files := files w; stdout := stdout w; opened := opened w;
     handles := drop_handle file m (handles w) |}.

(** The check [tb.open_file] makes against the registry: a file that is
    open may be opened again in the mode it is open in; ['r'] is refused
    while it is open in ['a'], and ['a'] while it is open in ['r']. *)
Definition can_open (file : string) (m : mode) (w : world) : bool :=
  forallb (fun h => negb (String.eqb (fst h) file) || mode_eqb (snd h) m)
          (handles w).

Definition already_opened : exn := ValueError "The file is already opened".

(** [tb.open_file(file, mode)].  The registry is checked first.  Mode ['r']
    needs the file; mode ['a'] creates an empty file (no group) when there
    is none.  The handle is the name of the file, open in [mode]. *)
Definition open_file (file : string) (m : mode) : M world string :=
  log_open file m ;;;
  free <- gets (can_open file m) ;;
  if negb free then raise already_opened
  else
    fs <- gets files ;;
    match fs !! file, m with
    | Some _, _ => modify (held file m) ;;; ret file
    | None, ModeR => raise IOError
    | None, ModeA =>
        modify (set_files (<[file := {| BTC := None; ETH := None |}]> fs)) ;;;
        modify (held file m) ;;;
        ret file
    end.

(** [f.close()]. *)
Definition close_file (file : string) (m : mode) : M world unit :=
  modify (released file m).

(** The group an upper-cased symbol selects: [f.root.BTC] when it is ['BTC'],
    [f.root.ETH] otherwise. *)
Definition is_btc (sym : string) : bool := String.eqb sym "BTC".

Definition group (sym : string) (f : h5file) : option (list PriceRecord) :=
  if is_btc sym then BTC f else ETH f.

Definition set_group (sym : string) (rows : list PriceRecord) (f : h5file)
  : h5file :=
  if is_btc sym then {| BTC := Some rows; ETH := ETH f |}
  else {| BTC := BTC f; ETH := Some rows |}.

(** [f.root.<SYM>._f_get_timeseries()]: the node must exist. *)
Definition get_timeseries (f sym : string) : M world (list PriceRecord) :=
  fs <- gets files ;;
  match fs !! f with
  | None => raise IOError
  | Some h =>
      match group sym h with
      | Some rows => ret rows
      | None => raise NoSuchNodeError
      end
  end.

(** The timestamps are in ascending order. *)
Fixpoint ascending (ts : list Z) : bool :=
  match ts with
  | [] => true
  | a :: rest =>
      match rest with
      | [] => true
      | b :: _ => (a <=? b)%Z && ascending rest
      end
  end.

(** What tstables asks of the rows it appends: they are sorted by
    timestamp, and they do not start before the last stored timestamp. *)
Definition appendable (rows data : list PriceRecord) : bool :=
  ascending (map timestamp data) &&
  match map timestamp rows, data with
  | t :: ts, d :: _ => (fold_right Z.max t ts <=? timestamp d)%Z
  | _, _ => true
  end.

Definition not_appendable : exn := ValueError "rows cannot be appended".

(** [tseries.append(data)] of tstables: rows that are not sorted, or that
    start before the end of the stored rows, are refused with a
    [ValueError]; other rows are written behind the stored ones, all of
    them. *)
Definition ts_append (f sym : string) (data : DataFrame) : M world unit :=
  fs <- gets files ;;
  match fs !! f with
  | None => raise IOError
  | Some h =>
      match group sym h with
      | Some rows =>
          if appendable rows data
          then modify (set_files (<[f := set_group sym (rows ++ data) h]> fs))
          else raise not_appendable
      | None => raise NoSuchNodeError
      end
  end.

(** [ts.read_range(start, end)] of tstables: both bounds are
    [datetime]s (it reads their [tzinfo], which a [date] or a scalar does not
    have), [start <= end], and the rows inside the closed range are
    returned. *)
Definition ts_read_range (rows : list PriceRecord) (start end_ : pyval)
  : result DataFrame :=
  match start, end_ with
  | PDatetime a, PDatetime b =>
      if (b <? a)%Z then Raise AttributeError
      else Ok (List.filter
                 (fun r => (a <=? timestamp r)%Z && (timestamp r <=? b)%Z)
                 rows)
  | _, _ => Raise AttributeError
  end.

(** Modelled from the spec: [get_minmax_timeseries] of
    [data/_data_helpers.py], imported by this module but not part of the
    sources.  The extent of a series is "the inclusive [min, max] timestamp
    range currently stored", or "empty" when there is no row; the caller
    below tests [start is None and end is None] for the latter. *)
Definition get_minmax_timeseries (rows : list PriceRecord) : pyval * pyval :=
  match map timestamp rows with
  | [] => (PNone, PNone)
  | t :: ts => (PDatetime (fold_right Z.min t ts),
                PDatetime (fold_right Z.max t ts))
  end.

Definition symbol_error : exn := ValueError "Symbol must be BTC or ETH".

(** [symbol.upper() not in ['BTC', 'ETH']] raises; otherwise the upper-cased
    symbol is what the rest of the function branches on. *)
Definition check_symbol (symbol : atom) : result string :=
  match py_upper symbol with
  | Raise e => Raise e
  | Ok u =>
      if String.eqb u "BTC" || String.eqb u "ETH" then Ok u
      else Raise symbol_error
  end.

(** The body of the [try] of [append_to_datafile].  [f.close()] is its last
    statement: it is not reached when a statement before it raises, and the
    handle stays open. *)
Definition append_body (sym : string) (data : DataFrame) (file : string)
  : M world unit :=
  f <- open_file file ModeA ;;
  get_timeseries f sym ;;;
  ts_append f sym data ;;;
  close_file f ModeA.

(** [ensure_hdf5(str(file))], which every function below starts with: the
    argument is a [str] by then, so the check of [ensure_hdf5] passes. *)
Definition normalize (file : atom) : string :=
  let name := py_str file in
  if String.eqb (last3 name) ".h5" then name else name ++ ".h5".

(** [append_to_datafile(symbol, data, file='data.h5')]. *)
Definition append_to_datafile (symbol : atom) (data : pydata) (file : atom)
  : M world unit :=
  sym <- lift (check_symbol symbol) ;;
  match data with
  | NotDataFrame _ => raise (ValueError "Data must be Pandas DataFrame")
  | IsDataFrame df =>
      file <- lift (ensure_hdf5 (AStr (py_str file))) ;;
      try_except (append_body sym df file)
                 (print ("Error appending to " ++ file))
  end.

(** The body of the [try] of [get_minmax_daterange]; [f.close()] is not
    reached when the statements before it raise. *)
Definition minmax_body (sym file : string) : M world (option (pyval * pyval)) :=
  f <- open_file file ModeR ;;
  ts <- get_timeseries f sym ;;
  let range := get_minmax_timeseries ts in
  close_file f ModeR ;;;
  ret (Some range).

(** [get_minmax_daterange(symbol, file='data.h5')]: the pair, or [None]
    after the [except] branch. *)
Definition get_minmax_daterange (symbol : atom) (file : atom)
  : M world (option (pyval * pyval)) :=
  sym <- lift (check_symbol symbol) ;;
  file <- lift (ensure_hdf5 (AStr (py_str file))) ;;
  try_except (minmax_body sym file)
             (print ("Error getting min-max dates from to " ++ file) ;;;
              ret None).

(** [(start - end).total_seconds()]: defined between two [datetime]s and
    between two [date]s; every other pair with a [datetime] or a [date] in it
    is a [TypeError]. *)
Definition sub_total_seconds (start end_ : pyval) : result Z :=
  match start, end_ with
  | PDatetime a, PDatetime b => Ok (a - b)%Z
  | PDate a, PDate b => Ok ((a - b) * 86400)%Z
  | _, _ => Raise TypeError
  end.

(** The checks of [read_datafile] made when [all_data] is false. *)
Definition check_range (start end_ : pyval) : result unit :=
  if negb (ensure_datetime start || ensure_datetime end_)
  then Raise (ValueError "Must pass valid datetime arguments")
  else
    match sub_total_seconds start end_ with
    | Raise e => Raise e
    | Ok d =>
        if (0 <=? d)%Z
        then Raise (ValueError "Start time must be prior to end time")
        else Ok tt
    end.

(** The body of the [try] of [read_datafile]; [symbol] is the argument as it
    was passed (it is handed on to [get_minmax_daterange]), [sym] its
    upper-cased form.  The file is opened by a [with] statement, which
    closes it however its block ends. *)
Definition read_body (symbol : atom) (sym : string) (start end_ : pyval)
    (file : string) (all_data : bool) : M world (option DataFrame) :=
  f <- open_file file ModeR ;;
  with_exit
    (ts <- get_timeseries f sym ;;
     range <- (if all_data
               then r <- get_minmax_daterange symbol (AStr file) ;;
                    match r with
                    | Some p => ret p
                    | None => raise TypeError   (* unpacking [None] *)
                    end
               else ret (start, end_)) ;;
     match range with
     | (PNone, PNone) =>
         print ("No data found in " ++ file) ;;;
         ret None
     | (s, e) =>
         dataset <- lift (ts_read_range ts s e) ;;
         ret (Some dataset)
     end)
    (released f ModeR).

(** [read_datafile(symbol, start, end, file, all_data)]: a table, or [None]
    after "No data found" and after the [except] branch. *)
Definition read_datafile (symbol : atom) (start end_ : pyval) (file : atom)
    (all_data : bool) : M world (option DataFrame) :=
  (if all_data then ret tt else lift (check_range start end_)) ;;;
  sym <- lift (check_symbol symbol) ;;
  file <- lift (ensure_hdf5 (AStr (py_str file))) ;;
  try_except (read_body symbol sym start end_ file all_data)
             (print ("Error reading from " ++ file) ;;; ret None).

End AccessHdf5.

(** ** base/algo_env.py *)
Module AlgoEnv.
Import AccessHdf5.

(** The attributes of an [AlgorithmEnvironment] that the data methods read:
    [file] as its setter stored it, [symbol] (upper-cased by its setter) and
    [window] ('D', 'H' or 'M'), each possibly [None]. *)
Inductive time_window := Daily | Hourly | Minute.

Record AlgorithmEnvironment := {
  file : option string;
  symbol : option string;
  window : option time_window
}.

(** [check_key_attributes()]. *)
Definition check_key_attributes (self : AlgorithmEnvironment)
  : result (string * string * time_window) :=
  match symbol self, window self, file self with
  | Some s, Some w, Some f => Ok (f, s, w)
  | _, _, _ =>
      Raise (ValueError
        "Please ensure you have chosen: a symbol, time window, and local file")
  end.

(** Modelled from the spec: [select_new_values] of the [data] package, called
    below but not part of the sources.  "Rows whose timestamp falls inside or
    before the existing extent are considered already present and are
    dropped"; with no extent nothing is dropped; "if the filtered set is
    empty" there is nothing to append, which the caller reads as [None]. *)
Definition select_new_values (dataframe : DataFrame) (old_min old_max : pyval)
  : option DataFrame :=
  let new_df :=
    match old_max with
    | PDatetime m => List.filter (fun r => (m <? timestamp r)%Z) dataframe
    | _ => dataframe
    end in
  match new_df with
  | [] => None
  | _ => Some new_df
  end.

(** [update_all_historical()].  [hist_df] is the table the CryptoCompare
    client returns for the window and the symbol of the environment. *)
Definition update_all_historical (hist_df : DataFrame)
    (self : AlgorithmEnvironment) : M world unit :=
  attrs <- lift (check_key_attributes self) ;;
  let '(f, s, _) := attrs in
  r <- get_minmax_daterange (AStr s) (AStr f) ;;
  match r with
  | None => raise TypeError   (* unpacking [None] *)
  | Some (old_min, old_max) =>
      match select_new_values hist_df old_min old_max with
      | None =>
          print ("No new data for " ++ s ++
                 " found - no data saved locally")
      | Some new_df =>
          (* no [file] argument: the default ['data.h5'] *)
          append_to_datafile (AStr s) (IsDataFrame new_df) (AStr "data.h5") ;;;
          print ("All available historical data for " ++ s ++
                 " has been successfully loaded!")
      end
  end.

(** [read_stored_data(start, end, all_data)]: what is stored in
    [data_raw]. *)
Definition read_stored_data (start end_ : pyval) (all_data : bool)
    (self : AlgorithmEnvironment) : M world (option DataFrame) :=
  attrs <- lift (check_key_attributes self) ;;
  let '(f, s, _) := attrs in
  data_raw <- read_datafile (AStr s) start end_ (AStr f) all_data ;;
  match data_raw with
  | Some _ => print "Data has been loaded into 'data_raw'!" ;;; ret data_raw
  | None => ret data_raw
  end.

End AlgoEnv.

(** ** backtest/_dataset.py *)
Module Backtest.

(** A [DataFrame]: the index and the named columns, in their order.  Every
    column has one value per index entry. *)
Record frame (X : Type) := {
  index : list Z;
  columns : list (string * list X)
}.
Arguments index {X} f.
Arguments columns {X} f.

(** The values of a float64 column of the sample.  [numpy.log] is a function
    of the C library whose result is not fixed bit by bit; [Log x] stands for
    its value at the float [x].  What the code depends on is fixed: the
    result is NaN exactly when [x] is NaN or negative. *)
Inductive cell :=
| Num (x : float)
| Log (x : float).

(** [pandas.isna] on one value. *)
Definition isna (c : cell) : bool :=
  match c with
  | Num x => PrimFloat.is_nan x
  | Log x => PrimFloat.is_nan x || PrimFloat.ltb x PrimFloat.zero
  end.

Definition fmap_frame {X Y} (f : X -> Y) (df : frame X) : frame Y :=
  {| index := index df;
     columns := map (fun c => (fst c, map f (snd c))) (columns df) |}.

(** [raw.copy()], read as a table of the sample's values. *)
Definition copy (df : frame float) : frame cell := fmap_frame Num df.

(** [len(df)]. *)
Definition len {X} (df : frame X) : nat := length (index df).

(** [df[name]]: [None] stands for the [KeyError]. *)
Definition getitem {X} (name : string) (df : frame X) : option (list X) :=
  match find (fun c => String.eqb (fst c) name) (columns df) with
  | Some c => Some (snd c)
  | None => None
  end.

(** [name in df.columns]. *)
Definition has_column {X} (name : string) (df : frame X) : bool :=
  existsb (fun c => String.eqb (fst c) name) (columns df).

(** [df[name] = values]: an existing column is replaced where it stands, a
    new one goes last. *)
Definition setitem {X} (name : string) (values : list X) (df : frame X)
  : frame X :=
  {| index := index df;
     columns :=
       if has_column name df
       then map (fun c => if String.eqb (fst c) name then (name, values)
                          else c) (columns df)
       else columns df ++ [(name, values)] |}.

(** [series.shift(n)] for [n >= 0]: the values move down by [n] rows and the
    first [n] rows are NaN. *)
Definition shift (n : nat) (series : list cell) : list cell :=
  firstn (length series) (repeat (Num PrimFloat.nan) n ++ series).

(** Row [i] has no NaN in any column. *)
Definition row_complete (df : frame cell) (i : nat) : bool :=
  forallb (fun c => match nth_error (snd c) i with
                    | Some v => negb (isna v)
                    | None => true
                    end) (columns df).

Fixpoint select {A} (mask : list bool) (l : list A) : list A :=
  match mask, l with
  | b :: mask', x :: l' => if b then x :: select mask' l' else select mask' l'
  | _, _ => []
  end.

(** [df.dropna()]: the rows with a NaN in some column go, index entry
    included. *)
Definition dropna (df : frame cell) : frame cell :=
  let mask := map (row_complete df) (seq 0 (len df)) in
  {| index := select mask (index df);
     columns := map (fun c => (fst c, select mask (snd c))) (columns df) |}.

(** [log(cur / prev)] on two values of the [close] column.  The column is
    read from the copy of [raw] that [reset_sample_data] has just stored, so
    both are [Num]; the last case is not reached. *)
Definition log_ratio (cur prev : cell) : cell :=
  match cur, prev with
  | Num a, Num b => Log (PrimFloat.div a b)
  | _, _ => Num PrimFloat.nan
  end.

Fixpoint map2 {A B C} (f : A -> B -> C) (l : list A) (l' : list B) : list C :=
  match l, l' with
  | a :: r, b :: r' => f a b :: map2 f r r'
  | _, _ => []
  end.

(** The arguments handed to the setters: a scalar or a [DataFrame]. *)
Inductive pyarg :=
| ArgAtom (a : atom)
| ArgFrame (df : frame float).

(** The three attributes of a [Dataset]; [None] is Python's [None]. *)
Record Dataset := {
  raw : option (frame float);
  sample : option (frame cell);
  nlags : option Z
}.

Definition frame_error : exn := ValueError "Must be Pandas DataFrame object".

(** [self.__raw = v], [self.__sample = v], [self.__nlags = v]. *)
Definition assign_raw (v : option (frame float)) : M Dataset unit :=
  modify (fun d => {| raw := v; sample := sample d; nlags := nlags d |}).

Definition assign_sample (v : option (frame cell)) : M Dataset unit :=
  modify (fun d => {| raw := raw d; sample := v; nlags := nlags d |}).

Definition assign_nlags (v : option Z) : M Dataset unit :=
  modify (fun d => {| raw := raw d; sample := sample d; nlags := v |}).

(** The setter of [sample]: [None] or a [DataFrame] is stored as it is. *)
Definition set_sample (new_sample : pyarg) : M Dataset unit :=
  match new_sample with
  | ArgAtom ANone => assign_sample None
  | ArgFrame df => assign_sample (Some (copy df))
  | ArgAtom _ => raise frame_error
  end.

(** [reset_sample_data()]. *)
Definition reset_sample_data : M Dataset unit :=
  r <- gets raw ;;
  match r with
  | None => assign_sample None
  | Some df => assign_sample (Some (copy df))
  end.

(** [add_log_returns()].  Its last statement, [self.nlags = None], is the
    first branch of the setter of [nlags]: the attribute is stored. *)
Definition add_log_returns : M Dataset unit :=
  reset_sample_data ;;;
  data <- gets sample ;;
  match data with
  | None => raise TypeError
  | Some data =>
      match getitem "close" data with
      | None => raise (KeyError "close")
      | Some close =>
          let data := setitem "returns"
                        (map2 log_ratio close (shift 1 close)) data in
          assign_sample (Some data) ;;;
          assign_sample (Some (dropna data)) ;;;
          assign_nlags None
      end
  end.

(** One turn of the loop of [set_return_lags]: [num = i + 1]. *)
Definition add_lag (data : frame cell) (i : nat) : result (frame cell) :=
  let num := (i + 1)%nat in
  let lagname := "returns_" ++ pretty num in
  if has_column lagname data then Ok data
  else
    match getitem "returns" data with
    | None => Raise (KeyError "returns")
    | Some returns => Ok (setitem lagname (shift num returns) data)
    end.

Fixpoint add_lags (data : frame cell) (range : list nat)
  : result (frame cell) :=
  match range with
  | [] => Ok data
  | i :: rest =>
      match add_lag data i with
      | Ok data' => add_lags data' rest
      | Raise e => Raise e
      end
  end.

Definition lag_error : exn :=
  ValueError "Must have less lags than length of sample dataset".

(** [set_return_lags(nlags)]. *)
Definition set_return_lags (nlags : pyarg) : M Dataset unit :=
  match nlags with
  | ArgAtom (AInt k) =>
      if negb (1 <? k)%Z
      then raise (ValueError "Must have more than one lag")
      else
        s <- gets sample ;;
        match s with
        | None => raise TypeError   (* [len(None)] *)
        | Some s =>
            if (Z.of_nat (len s) + 1 <? k)%Z then raise lag_error
            else
              add_log_returns ;;;
              data <- gets sample ;;
              match data with
              | None => raise TypeError
              | Some data =>
                  data <- lift (add_lags data (seq 0 (Z.to_nat k))) ;;
                  assign_sample (Some data) ;;;
                  assign_sample (Some (dropna data))
              end
        end
  | _ => raise (ValueError "Must have more than one lag")
  end.

(** The setter of [nlags]. *)
Definition set_nlags (nlags : pyarg) : M Dataset unit :=
  match nlags with
  | ArgAtom ANone => assign_nlags None
  | ArgAtom (AInt k) =>
      if (k <=? 1)%Z then raise (ValueError "Must be greater than 1")
      else
        set_return_lags nlags ;;;
        assign_nlags (Some k)
  | _ => raise (ValueError "Must be an integer value")
  end.

(** The setter of [raw]. *)
Definition set_raw (new_raw : pyarg) : M Dataset unit :=
  match new_raw with
  | ArgAtom ANone =>
      assign_raw None ;;;
      set_sample new_raw
  | ArgFrame df =>
      assign_raw (Some df) ;;;
      set_sample new_raw ;;;
      add_log_returns
  | ArgAtom _ => raise frame_error
  end.

(** [__init__(input_data)].  No attribute is read before it is written, so
    the object starts from any state; [blank] is the one used. *)
Definition init (input_data : pyarg) : M Dataset unit :=
  set_raw input_data ;;;
  set_nlags (ArgAtom ANone).

Definition blank : Dataset := {| raw := None; sample := None; nlags := None |}.

(** [Dataset(input_data)]: the object, unless [__init__] raises. *)
Definition new (input_data : pyarg) : result Dataset :=
  match init input_data blank with
  | (Ok _, d) => Ok d
  | (Raise e, _) => Raise e
  end.

(** *** The states of the specification

    These two follow the words of the specification, not the code: the
    LogReturns table is the copy of [raw] with the [returns] column and
    "the first row dropped"; the Lagged(k) table has in addition
    [returns_1 .. returns_k], [returns_i[t] = returns[t - i]], and "the first
    k rows" dropped. *)
Definition drop_rows {X} (n : nat) (df : frame X) : frame X :=
  {| index := skipn n (index df);
     columns := map (fun c => (fst c, skipn n (snd c))) (columns df) |}.

Definition spec_log_returns (raw : frame float) : option (frame cell) :=
  match getitem "close" (copy raw) with
  | None => None
  | Some close =>
      Some (drop_rows 1
              (setitem "returns" (map2 log_ratio close (shift 1 close))
                 (copy raw)))
  end.

Definition spec_lag_columns (k : nat) (df : frame cell) : frame cell :=
  match getitem "returns" df with
  | None => df
  | Some returns =>
      fold_left
        (fun d i => setitem ("returns_" ++ pretty i) (shift i returns) d)
        (seq 1 k) df
  end.

Definition spec_lagged (k : nat) (raw : frame float) : option (frame cell) :=
  match spec_log_returns raw with
  | None => None
  | Some lr => Some (drop_rows k (spec_lag_columns k lr))
  end.

(** The pipeline of the specification for a [raw] and an [nlags]. *)
Definition spec_pipeline (raw : option (frame float)) (nlags : option Z)
  : option (frame cell) :=
  match raw, nlags with
  | None, _ => None
  | Some r, None => spec_log_returns r
  | Some r, Some k => spec_lagged (Z.to_nat k) r
  end.

End Backtest.

(** ** What the Dataset computes, as functions of [raw] and [nlags] *)
Module Pipeline.
Import Backtest.

(** The table [add_log_returns] stores for a [raw]. *)
Definition log_returns_of (r : frame float) : result (frame cell) :=
  match getitem "close" (copy r) with
  | None => Raise (KeyError "close")
  | Some close =>
      Ok (dropna (setitem "returns" (map2 log_ratio close (shift 1 close))
                    (copy r)))
  end.

(** The table [set_return_lags(k)] stores for a [raw]. *)
Definition lagged_of (k : Z) (r : frame float) : result (frame cell) :=
  match log_returns_of r with
  | Raise e => Raise e
  | Ok lr =>
      match add_lags lr (seq 0 (Z.to_nat k)) with
      | Raise e => Raise e
      | Ok data => Ok (dropna data)
      end
  end.

Definition to_option {A} (r : result A) : option A :=
  match r with
  | Ok a => Some a
  | Raise _ => None
  end.

(** The sample that belongs to a [raw] and an [nlags]. *)
Definition pipeline (raw : option (frame float)) (nlags : option Z)
  : option (frame cell) :=
  match raw, nlags with
  | None, _ => None
  | Some r, None => to_option (log_returns_of r)
  | Some r, Some k => to_option (lagged_of k r)
  end.

(** The states a [Dataset] reaches by construction, by assignments to [raw]
    and by assignments of an integer to [nlags], each of which returns. *)
Inductive reachable : Dataset -> Prop :=
| reach_new input d :
    new input = Ok d -> reachable d
| reach_set_raw d new_raw d' :
    reachable d -> set_raw new_raw d = (Ok tt, d') -> reachable d'
| reach_set_nlags d k d' :
    reachable d -> set_nlags (ArgAtom (AInt k)) d = (Ok tt, d') ->
    reachable d'.

(** A price table with the single column [close] and the index 0, 1, ... *)
Definition closes (l : list float) : frame float :=
  {| index := map Z.of_nat (seq 0 (length l)); columns := [("close", l)] |}.

End Pipeline.

(** ** Fixtures and auxiliary notions of the properties below *)
Module Scenarios.
Import AccessHdf5 AlgoEnv Backtest Pipeline.

(** A price row at timestamp [t]; the prices play no part in the store. *)
Definition row (t : Z) : PriceRecord :=
  {| timestamp := t; p_open := 1; p_high := 1; p_low := 1; p_close := 1;
     p_volume := 1 |}.

(** Modelled from the spec: [create_datafile] of the [data] package, which
    the setter of [file] calls and which is not part of the sources.  It
    "creates the backing file/container if absent", and a symbol of a fresh
    container "has no stored rows yet": both series are there, without
    rows. *)
Definition empty_container : h5file := {| BTC := Some []; ETH := Some [] |}.

(** A world with the given files, nothing printed, nothing opened. *)
Definition store (fs : list (string * h5file)) : world :=
  {| files := list_to_map fs; stdout := []; opened := []; handles := [] |}.

Definition no_files : world := store [].
Definition fresh_data_h5 : world := store [("data.h5", empty_container)].
Definition two_fresh_files : world :=
  store [("data.h5", empty_container); ("other.h5", empty_container)].

(** An environment whose [file] was set to ['other.h5']. *)
Definition env_other : AlgorithmEnvironment :=
  {| file := Some "other.h5"; symbol := Some "BTC"; window := Some Daily |}.

Definition fetched : DataFrame := [row 1; row 2].

(** [read_all] and [extent] of the specification: what
    [read_datafile(symbol, file=file)] and
    [get_minmax_daterange(symbol, file)] give back. *)
Definition read_all (sym file : string) (w : world)
  : result (option DataFrame) :=
  fst (read_datafile (AStr sym) PNone PNone (AStr file) true w).

Definition extent (sym file : string) (w : world)
  : result (option (pyval * pyval)) :=
  fst (get_minmax_daterange (AStr sym) (AStr file) w).

(** The upper end of the extent of a series. *)
Definition max_timestamp (rows : list PriceRecord) : pyval :=
  snd (get_minmax_timeseries rows).

(** A computation that works on the file [f] and on no other.  What it
    returns, what it leaves in [f] and the handles it leaves open depend on
    what [f] holds and on the open handles, and on nothing else of the
    world; every file it opens is [f]; every other file is left as it
    is. *)
Definition works_on {A} (f : string) (m : M world A) : Prop :=
  forall w w', files w !! f = files w' !! f -> handles w = handles w' ->
    (fst (m w) = fst (m w') /\
     files (snd (m w)) !! f = files (snd (m w')) !! f /\
     handles (snd (m w)) = handles (snd (m w'))) /\
    (exists l, opened (snd (m w)) = (opened w ++ l)%list /\
               forall o, In o l -> fst o = f) /\
    (forall name, name <> f -> files (snd (m w)) !! name = files w !! name).

Definition raw_100_110_121 : frame float :=
  closes [100%float; 110%float; 121%float].

Definition raw_doubling : frame float :=
  closes [1%float; 2%float; 4%float; 8%float; 16%float].

(** The table with the two lag columns and no row. *)
Definition empty_lagged_2 : frame cell :=
  {| index := [];
     columns := [("close", []); ("returns", []); ("returns_1", []);
                 ("returns_2", [])] |}.

End Scenarios.

(** ** base/algo_env.py, the setters of [symbol] and [window] *)
Module EnvAttributes.
Import AccessHdf5 AlgoEnv.

Definition window_error : exn :=
  ValueError "Time window must be: 'D', 'H', 'M'".

(** The stored window, an upper-cased ['D'], ['H'] or ['M']. *)
Definition window_of_string (u : string) : option time_window :=
  if String.eqb u "D" then Some Daily
  else if String.eqb u "H" then Some Hourly
  else if String.eqb u "M" then Some Minute
  else None.

(** The setter of [symbol]: [new_symbol.upper()] is never [None], so the
    test [not in [None, 'BTC', 'ETH']] is the test of the store. *)
Definition set_symbol (new_symbol : atom) : M AlgorithmEnvironment unit :=
  match new_symbol with
  | ANone =>
      modify (fun self => {| file := file self; symbol := None;
                             window := window self |})
  | _ =>
      u <- lift (py_upper new_symbol) ;;
      if String.eqb u "BTC" || String.eqb u "ETH"
      then modify (fun self => {| file := file self; symbol := Some u;
                                  window := window self |})
      else raise symbol_error
  end.

(** The setter of [window]. *)
Definition set_window (new_window : atom) : M AlgorithmEnvironment unit :=
  match new_window with
  | ANone =>
      modify (fun self => {| file := file self; symbol := symbol self;
                             window := None |})
  | _ =>
      u <- lift (py_upper new_window) ;;
      match window_of_string u with
      | Some w =>
          modify (fun self => {| file := file self; symbol := symbol self;
                                 window := Some w |})
      | None => raise window_error
      end
  end.

End EnvAttributes.

(** ** Notions of the further properties *)
Module Notions.
Import AccessHdf5 Backtest.

(** A computation that leaves every file as it is. *)
Definition read_only {A} (m : M world A) : Prop :=
  forall w, files (snd (m w)) = files w.

(** A computation that leaves every file but [f] as it is. *)
Definition touches_only {A} (f : string) (m : M world A) : Prop :=
  forall w name, name <> f -> files (snd (m w)) !! name = files w !! name.

(** No handle of [file] is open. *)
Definition closed (file : string) (w : world) : bool :=
  forallb (fun h => negb (String.eqb (fst h) file)) (handles w).

(** The timestamps increase strictly. *)
Fixpoint increasing (ts : list Z) : bool :=
  match ts with
  | [] => true
  | a :: rest =>
      match rest with
      | [] => true
      | b :: _ => (a <? b)%Z && increasing rest
      end
  end.

(** New rows for a series that holds [rows]: at least one row, the
    timestamps increasing strictly, each after every stored timestamp. *)
Definition extends (rows data : list PriceRecord) : bool :=
  match data with
  | [] => false
  | d :: _ =>
      increasing (map timestamp data) &&
      forallb (fun r => (timestamp r <? timestamp d)%Z) rows
  end.

(** No value of the table is NaN. *)
Definition no_nan (df : frame cell) : Prop :=
  forall name col x, In (name, col) (columns df) -> In x col -> isna x = false.

(** The [returns] values of the closes [l] that follow the close [prev]. *)
Fixpoint returns_from (prev : float) (l : list float) : list cell :=
  match l with
  | [] => []
  | x :: rest => Log (PrimFloat.div x prev) :: returns_from x rest
  end.

(** Every return between two consecutive closes is defined. *)
Definition valid_ratios (l : list float) : bool :=
  match l with
  | [] => true
  | x :: rest => forallb (fun c => negb (isna c)) (returns_from x rest)
  end.

(** Every column is as long as the index and holds no NaN. *)
Definition all_complete (r : frame float) : bool :=
  forallb (fun c => (length (snd c) =? len r)%nat &&
                    forallb (fun x => negb (PrimFloat.is_nan x)) (snd c))
          (columns r).

(** [raw] has no column named like the columns the pipeline adds. *)
Definition names_free (k : nat) (r : frame float) : bool :=
  negb (has_column "returns" r) &&
  forallb (fun i => negb (has_column ("returns_" ++ pretty i) r)) (seq 1 k).

End Notions.

(** ** Tables of the further properties of the Dataset *)
Module Tables.
Import Backtest Pipeline Scenarios Notions.

(** Row [i] of one column holds no NaN. *)
Definition cell_ok (i : nat) (c : string * list cell) : bool :=
  match nth_error (snd c) i with
  | Some v => negb (isna v)
  | None => true
  end.

(** The table [add_log_returns] builds before it drops rows. *)
Definition with_returns (r : frame float) (l : list float) : frame cell :=
  setitem "returns" (returns_from PrimFloat.nan l) (copy r).

(** The table [add_log_returns] leaves for a clean [raw]: the first row is
    dropped. *)
Definition log_returns_table (r : frame float) (l : list float) : frame cell :=
  drop_rows 1 (with_returns r l).

(** Its [returns] column. *)
Definition later_returns (l : list float) : list cell :=
  skipn 1 (returns_from PrimFloat.nan l).

(** The lag columns of the returns [R] for the lags [s + 1 .. s + m]. *)
Definition lag_columns (R : list cell) (s m : nat)
  : list (string * list cell) :=
  map (fun i => ("returns_" ++ pretty i, shift i R)) (seq (S s) m).

(** The table [set_return_lags] builds for a clean [raw] before it drops
    rows. *)
Definition with_lags (r : frame float) (l : list float) (k : nat)
  : frame cell :=
  {| index := index (log_returns_table r l);
     columns := columns (log_returns_table r l)
                ++ lag_columns (later_returns l) 0 k |}.

(** Closes with a missing value. *)
Definition raw_with_gap : frame float :=
  closes [1%float; 2%float; PrimFloat.nan; 4%float; 8%float; 16%float].

(** A table without the [close] column. *)
Definition volume_only : frame float :=
  {| index := [0%Z; 1%Z]; columns := [("volume", [5%float; 6%float])] |}.

(** A price table with three columns and five rows. *)
Definition ohlcv_closes : list float :=
  [2%float; 4%float; 8%float; 16%float; 32%float].

Definition ohlcv_table : frame float :=
  {| index := [10%Z; 20%Z; 30%Z; 40%Z; 50%Z];
     columns :=
       [("open", [1%float; 2%float; 4%float; 8%float; 16%float]);
        ("close", ohlcv_closes);
        ("volume", [5%float; 5%float; 5%float; 5%float; 5%float])] |}.

End Tables.

(** * Properties of the Dataset *)
Section DatasetProperties.
Import Backtest Pipeline Scenarios.

(** [add_log_returns] as a function of the state it starts from. *)
Lemma add_log_returns_eq (d : Dataset) :
  add_log_returns d =
  match raw d with
  | None =>
      (Raise TypeError, {| raw := None; sample := None; nlags := nlags d |})
  | Some r =>
      match log_returns_of r with
      | Ok lr => (Ok tt, {| raw := Some r; sample := Some lr; nlags := None |})
      | Raise e =>
          (Raise e,
           {| raw := Some r; sample := Some (copy r); nlags := nlags d |})
      end
  end.
Proof.
  unfold add_log_returns, reset_sample_data, log_returns_of, bind, gets,
    assign_sample, assign_nlags, modify, raise.
  destruct d as [[r|] s n]; simpl; [|reflexivity].
  destruct (getitem "close" (copy r)); reflexivity.
Qed.

(** [set_return_lags(k)] for an integer [k > 1]: the two guards, then the
    recomputation from [raw]. *)
Lemma set_return_lags_eq (k : Z) (d : Dataset) :
  (1 < k)%Z ->
  set_return_lags (ArgAtom (AInt k)) d =
  match sample d with
  | None => (Raise TypeError, d)
  | Some s =>
      if (Z.of_nat (len s) + 1 <? k)%Z then (Raise lag_error, d)
      else
        match raw d with
        | None => (Raise TypeError,
                   {| raw := None; sample := None; nlags := nlags d |})
        | Some r =>
            match log_returns_of r with
            | Raise e => (Raise e, {| raw := Some r; sample := Some (copy r);
                                      nlags := nlags d |})
            | Ok lr =>
                match add_lags lr (seq 0 (Z.to_nat k)) with
                | Raise e => (Raise e, {| raw := Some r; sample := Some lr;
                                          nlags := None |})
                | Ok data => (Ok tt, {| raw := Some r;
                                        sample := Some (dropna data);
                                        nlags := None |})
                end
            end
        end
  end.
Proof.
  intros Hk. unfold set_return_lags.
  assert (Hg : (1 <? k)%Z = true) by (apply Z.ltb_lt; exact Hk).
  rewrite Hg. cbn [negb]. unfold bind at 1. unfold gets at 1.
  destruct (sample d) as [s|] eqn:Hs; [|reflexivity].
  destruct (Z.of_nat (len s) + 1 <? k)%Z; [reflexivity|].
  unfold bind at 1. rewrite add_log_returns_eq.
  destruct (raw d) as [r|]; [|reflexivity].
  destruct (log_returns_of r) as [lr|e]; [|reflexivity].
  unfold bind, gets, lift, assign_sample, modify. cbn.
  destruct (add_lags lr (seq 0 (Z.to_nat k))); reflexivity.
Qed.

(** What a returning assignment of an integer to [nlags] leaves. *)
Lemma set_nlags_int_ok (k : Z) (d d' : Dataset) :
  set_nlags (ArgAtom (AInt k)) d = (Ok tt, d') ->
  (1 < k)%Z /\
  exists r lr data,
    raw d = Some r /\ log_returns_of r = Ok lr /\
    add_lags lr (seq 0 (Z.to_nat k)) = Ok data /\
    d' = {| raw := Some r; sample := Some (dropna data); nlags := Some k |}.
Proof.
  unfold set_nlags. destruct (k <=? 1)%Z eqn:Hk.
  - unfold raise. discriminate.
  - apply Z.leb_gt in Hk. intros H. split; [exact Hk|].
    unfold bind in H. rewrite (set_return_lags_eq k d Hk) in H.
    destruct (sample d) as [s|]; [|discriminate].
    destruct (Z.of_nat (len s) + 1 <? k)%Z; [discriminate|].
    destruct (raw d) as [r|]; [|discriminate].
    destruct (log_returns_of r) as [lr|e] eqn:Hlr; [|discriminate].
    destruct (add_lags lr (seq 0 (Z.to_nat k))) as [data|e] eqn:Hd;
      [|discriminate].
    exists r, lr, data. unfold assign_nlags, modify in H. cbn in H.
    injection H as <-. auto.
Qed.

(** What a returning assignment to [raw] leaves. *)
Lemma set_raw_ok (new_raw : pyarg) (d d' : Dataset) :
  set_raw new_raw d = (Ok tt, d') ->
  (new_raw = ArgAtom ANone /\
   d' = {| raw := None; sample := None; nlags := nlags d |}) \/
  (exists df lr, new_raw = ArgFrame df /\ log_returns_of df = Ok lr /\
     d' = {| raw := Some df; sample := Some lr; nlags := None |}).
Proof.
  destruct new_raw as [[| | |]|df]; unfold set_raw;
    try (unfold raise; discriminate).
  - unfold set_sample, bind, assign_raw, assign_sample, modify. cbn.
    intros H. injection H as <-. left. auto.
  - unfold bind at 1. unfold assign_raw at 1, modify at 1.
    unfold bind at 1. unfold set_sample, assign_sample at 1, modify at 1.
    rewrite add_log_returns_eq. cbn [raw].
    destruct (log_returns_of df) as [lr|e] eqn:Hlr; [|discriminate].
    intros H. injection H as <-. right. exists df, lr. auto.
Qed.

(** The values [log_ratio] meets are values of a copy of [raw]: all [Num]. *)
Lemma copy_cells_are_num (df : frame float) (name : string) (col : list cell) :
  getitem name (copy df) = Some col ->
  Forall (fun c => exists x, c = Num x) col.
Proof.
  unfold getitem, copy, fmap_frame. cbn [columns].
  induction (columns df) as [|[n l] cs IH]; cbn; [discriminate|].
  destruct (String.eqb n name).
  - intros H. injection H as <-. clear.
    induction l as [|x l IHl]; cbn; constructor; [now exists x|exact IHl].
  - exact IH.
Qed.

(** C3.  Raw closes [100, 110, 121]: the LogReturns sample has the two rows
    of index 1 and 2 and its [returns] column is [log(110/100)],
    [log(121/110)].  Assigning [nlags = 2] to it is not refused (the guard is
    [2 > 2 + 1]): it returns and leaves a sample with the two lag columns and
    no row. *)
Theorem closes_100_110_121_two_lags_accepted :
  exists d,
    new (ArgFrame raw_100_110_121) = Ok d /\
    sample d =
      Some {| index := [1%Z; 2%Z];
              columns :=
                [("close", [Num 110; Num 121]);
                 ("returns", [Log (110 / 100)%float; Log (121 / 110)%float])]
           |} /\
    set_nlags (ArgAtom (AInt 2)) d =
      (Ok tt, {| raw := Some raw_100_110_121; sample := Some empty_lagged_2;
                 nlags := Some 2%Z |}).
Proof.
  eexists. split; [vm_compute; reflexivity|]. split; vm_compute; reflexivity.
Qed.

(** C4.  Raw closes [1, 2, 4, 8, 16] have four LogReturns rows, so
    [nlags = 3] is accepted and leaves one row; assigning [nlags = 3] a
    second time raises, because the guard reads the length of the sample the
    first assignment left ([3 > 1 + 1]).  The Dataset is left as it was. *)
Theorem set_nlags_3_twice_second_raises :
  exists d d1,
    new (ArgFrame raw_doubling) = Ok d /\
    option_map len (sample d) = Some 4 /\
    set_nlags (ArgAtom (AInt 3)) d = (Ok tt, d1) /\
    option_map len (sample d1) = Some 1 /\
    set_nlags (ArgAtom (AInt 3)) d1 = (Raise lag_error, d1).
Proof.
  do 2 eexists. split; [vm_compute; reflexivity|].
  split; [reflexivity|]. split; [vm_compute; reflexivity|].
  split; vm_compute; reflexivity.
Qed.

(** X2.  An assignment of [k] that has returned, made once more: it raises
    when [k] exceeds the length of the lagged sample by more than one, and
    returns otherwise; either way the Dataset is the one the first
    assignment left. *)
Theorem set_nlags_again (k : Z) (d d1 : Dataset) :
  set_nlags (ArgAtom (AInt k)) d = (Ok tt, d1) ->
  exists s,
    sample d1 = Some s /\
    set_nlags (ArgAtom (AInt k)) d1 =
      if (Z.of_nat (len s) + 1 <? k)%Z then (Raise lag_error, d1)
      else (Ok tt, d1).
Proof.
  intros H.
  apply set_nlags_int_ok in H as (Hk & r & lr & data & Hr & Hlr & Hd & ->).
  exists (dropna data). split; [reflexivity|].
  unfold set_nlags. destruct (k <=? 1)%Z eqn:Hle; [apply Z.leb_le in Hle; lia|].
  unfold bind. rewrite (set_return_lags_eq k _ Hk). cbn [sample raw].
  destruct (Z.of_nat (len (dropna data)) + 1 <? k)%Z; [reflexivity|].
  rewrite Hlr, Hd. reflexivity.
Qed.

Lemma set_nlags_again_witness :
  exists s,
    sample (snd (set_nlags (ArgAtom (AInt 2))
                   {| raw := Some raw_doubling;
                      sample := pipeline (Some raw_doubling) None;
                      nlags := None |})) = Some s /\
    set_nlags (ArgAtom (AInt 2))
      (snd (set_nlags (ArgAtom (AInt 2))
              {| raw := Some raw_doubling;
                 sample := pipeline (Some raw_doubling) None;
                 nlags := None |})) =
      if (Z.of_nat (len s) + 1 <? 2)%Z
      then (Raise lag_error,
            snd (set_nlags (ArgAtom (AInt 2))
                   {| raw := Some raw_doubling;
                      sample := pipeline (Some raw_doubling) None;
                      nlags := None |}))
      else (Ok tt,
            snd (set_nlags (ArgAtom (AInt 2))
                   {| raw := Some raw_doubling;
                      sample := pipeline (Some raw_doubling) None;
                      nlags := None |})).
Proof.
  apply (set_nlags_again 2
           {| raw := Some raw_doubling;
              sample := pipeline (Some raw_doubling) None;
              nlags := None |}).
  vm_compute. reflexivity.
Defined.

(** C7.  Assigning [None] to [nlags] stores the attribute and nothing else.
    After [nlags = 2] on raw closes [1, 2, 4, 8, 16] it leaves [nlags] unset
    and the sample as it was: the Lagged(2) table, with [returns_1], not the
    LogReturns table. *)
Theorem set_nlags_none_keeps_lagged_sample :
  (forall d, set_nlags (ArgAtom ANone) d =
             (Ok tt, {| raw := raw d; sample := sample d; nlags := None |})) /\
  exists d d1 d2,
    new (ArgFrame raw_doubling) = Ok d /\
    set_nlags (ArgAtom (AInt 2)) d = (Ok tt, d1) /\
    set_nlags (ArgAtom ANone) d1 = (Ok tt, d2) /\
    nlags d2 = None /\
    sample d2 = sample d1 /\
    sample d2 = spec_lagged 2 raw_doubling /\
    sample d2 <> spec_log_returns raw_doubling /\
    option_map (has_column "returns_1") (sample d2) = Some true.
Proof.
  split; [reflexivity|].
  do 3 eexists. split; [vm_compute; reflexivity|].
  split; [vm_compute; reflexivity|]. split; [vm_compute; reflexivity|].
  split; [reflexivity|]. split; [reflexivity|].
  split; [vm_compute; reflexivity|]. split; [|reflexivity].
  vm_compute. intros H. discriminate H.
Qed.

(** C5.  The sequence construction, [nlags = 2], [nlags = None] on raw closes
    [1, 2, 4, 8, 16]: the sample is the pipeline output for [raw] and [nlags]
    after the first two steps and is not after the third. *)
Theorem invariant_broken_by_nlags_none :
  exists d d1 d2,
    new (ArgFrame raw_doubling) = Ok d /\
    set_nlags (ArgAtom (AInt 2)) d = (Ok tt, d1) /\
    set_nlags (ArgAtom ANone) d1 = (Ok tt, d2) /\
    sample d = spec_pipeline (raw d) (nlags d) /\
    sample d1 = spec_pipeline (raw d1) (nlags d1) /\
    sample d2 <> spec_pipeline (raw d2) (nlags d2) /\
    sample d2 <> pipeline (raw d2) (nlags d2).
Proof.
  do 3 eexists. split; [vm_compute; reflexivity|].
  split; [vm_compute; reflexivity|]. split; [vm_compute; reflexivity|].
  split; [vm_compute; reflexivity|]. split; [vm_compute; reflexivity|].
  split; vm_compute; intros H; discriminate H.
Qed.

(** X1.  The invariant without assignments of [None] to [nlags]: after a
    construction and any number of returning assignments to [raw] and of
    integers to [nlags], the sample is the table that belongs to the current
    [raw] and [nlags]. *)
Theorem sample_is_pipeline (d : Dataset) :
  reachable d -> sample d = pipeline (raw d) (nlags d).
Proof.
  induction 1 as [input d Hnew | d new_raw d' _ _ Hset | d k d' _ _ Hset].
  - unfold new, init in Hnew. unfold bind in Hnew.
    destruct (set_raw input blank) as [[[]|e] d1] eqn:Hraw; [|discriminate].
    unfold set_nlags, assign_nlags, modify in Hnew. injection Hnew as <-.
    apply set_raw_ok in Hraw as [[_ ->] | (df & lr & _ & Hlr & ->)]; cbn.
    + reflexivity.
    + rewrite Hlr. reflexivity.
  - apply set_raw_ok in Hset as [[_ ->] | (df & lr & _ & Hlr & ->)]; cbn.
    + reflexivity.
    + rewrite Hlr. reflexivity.
  - apply set_nlags_int_ok in Hset as (Hk & r & lr & data & Hr & Hlr & Hd & ->).
    cbn. unfold lagged_of. rewrite Hlr, Hd. reflexivity.
Qed.

Lemma sample_is_pipeline_witness :
  reachable {| raw := Some raw_doubling;
               sample := to_option (lagged_of 2 raw_doubling);
               nlags := Some 2%Z |} /\
  to_option (lagged_of 2 raw_doubling) =
    pipeline (Some raw_doubling) (Some 2%Z).
Proof.
  assert (R : reachable {| raw := Some raw_doubling;
               sample := to_option (lagged_of 2 raw_doubling);
               nlags := Some 2%Z |}).
  { eapply reach_set_nlags with (k := 2%Z).
    - eapply reach_new with (input := ArgFrame raw_doubling).
      vm_compute. reflexivity.
    - vm_compute. reflexivity. }
  split; [exact R|]. exact (sample_is_pipeline _ R).
Defined.

End DatasetProperties.

(** * Properties of the store *)
Section StoreProperties.
Import DataHelpers AccessHdf5 AlgoEnv Scenarios Notions.

(** ** File names *)

Lemma string_length_app (s t : string) :
  String.length (s ++ t) = (String.length s + String.length t)%nat.
Proof. induction s as [|c s IH]; simpl; [reflexivity|]. now rewrite IH. Qed.

Lemma substring_whole (t : string) : substring 0 (String.length t) t = t.
Proof. induction t as [|c t IH]; simpl; [reflexivity|]. now rewrite IH. Qed.

Lemma substring_after (s t : string) :
  substring (String.length s) (String.length t) (s ++ t) = t.
Proof.
  induction s as [|c s IH]; [apply substring_whole|exact IH].
Qed.

Lemma last3_app_h5 (s : string) : last3 (s ++ ".h5") = ".h5".
Proof.
  unfold last3. rewrite string_length_app. simpl String.length.
  replace (String.length s + 3 - 3)%nat with (String.length s) by lia.
  exact (substring_after s ".h5").
Qed.

Lemma ensure_hdf5_str (file : atom) :
  ensure_hdf5 (AStr (py_str file)) = Ok (normalize file).
Proof. reflexivity. Qed.

Lemma last3_normalize (file : atom) : last3 (normalize file) = ".h5".
Proof.
  unfold normalize. cbv zeta.
  destruct (String.eqb (last3 (py_str file)) ".h5") eqn:E.
  - now apply String.eqb_eq in E.
  - apply last3_app_h5.
Qed.

Lemma normalize_idem (file : atom) :
  normalize (AStr (normalize file)) = normalize file.
Proof.
  unfold normalize at 1. cbv zeta. cbn [py_str].
  rewrite last3_normalize. reflexivity.
Qed.

(** ** The three functions once their checks have passed *)

Lemma append_to_datafile_run symbol sym df file w :
  check_symbol symbol = Ok sym ->
  append_to_datafile symbol (IsDataFrame df) file w =
  match append_body sym df (normalize file) w with
  | (Ok _, w') => (Ok tt, w')
  | (Raise _, w') =>
      (Ok tt, printed ("Error appending to " ++ normalize file) w')
  end.
Proof.
  intros Hs. unfold append_to_datafile, bind, lift. rewrite Hs.
  rewrite ensure_hdf5_str. unfold try_except.
  destruct (append_body sym df (normalize file) w) as [[[]|e] w']; reflexivity.
Qed.

Lemma get_minmax_daterange_run symbol sym file w :
  check_symbol symbol = Ok sym ->
  get_minmax_daterange symbol file w =
  match minmax_body sym (normalize file) w with
  | (Ok v, w') => (Ok v, w')
  | (Raise _, w') =>
      (Ok None,
       printed ("Error getting min-max dates from to " ++ normalize file) w')
  end.
Proof.
  intros Hs. unfold get_minmax_daterange, bind, lift. rewrite Hs.
  rewrite ensure_hdf5_str. reflexivity.
Qed.

Lemma read_datafile_run symbol sym start end_ file all_data w :
  check_symbol symbol = Ok sym ->
  (all_data = false -> check_range start end_ = Ok tt) ->
  read_datafile symbol start end_ file all_data w =
  match read_body symbol sym start end_ (normalize file) all_data w with
  | (Ok v, w') => (Ok v, w')
  | (Raise _, w') =>
      (Ok None, printed ("Error reading from " ++ normalize file) w')
  end.
Proof.
  intros Hs Hr. unfold read_datafile, bind, lift, ret.
  destruct all_data.
  - rewrite Hs, ensure_hdf5_str. reflexivity.
  - rewrite (Hr eq_refl), Hs, ensure_hdf5_str. reflexivity.
Qed.

(** ** Open handles *)

Lemma mode_eqb_refl (m : mode) : mode_eqb m m = true.
Proof. destruct m; reflexivity. Qed.

Lemma drop_handle_head file m hs : drop_handle file m ((file, m) :: hs) = hs.
Proof. cbn. now rewrite String.eqb_refl, mode_eqb_refl. Qed.

Lemma released_held file m w : released file m (held file m w) = w.
Proof. destruct w. unfold released, held. cbn [files stdout opened handles].
  now rewrite drop_handle_head. Qed.

Lemma released_set_files_held file m fs w :
  released file m (set_files fs (held file m w)) = set_files fs w.
Proof.
  unfold released, set_files, held. cbn [files stdout opened handles].
  now rewrite drop_handle_head.
Qed.

Lemma released_printed file m line w :
  released file m (printed line w) = printed line (released file m w).
Proof. reflexivity. Qed.

Lemma released_logged_held file m f' m' w :
  released file m (logged f' m' (held file m w)) = logged f' m' w.
Proof.
  unfold released, logged, held. cbn [files stdout opened handles].
  now rewrite drop_handle_head.
Qed.

Lemma can_open_held file m f' m' w :
  can_open file m (held f' m' w)
  = (negb (String.eqb f' file) || mode_eqb m' m) && can_open file m w.
Proof. reflexivity. Qed.

Lemma can_open_same file m w :
  can_open file m (held file m w) = can_open file m w.
Proof.
  rewrite can_open_held, mode_eqb_refl. now rewrite orb_true_r.
Qed.

(** A handle left open in one mode bars the other mode. *)
Lemma can_open_other file m m' w :
  mode_eqb m' m = false -> can_open file m (held file m' w) = false.
Proof.
  intros H. rewrite can_open_held, String.eqb_refl, H. reflexivity.
Qed.

(** ** The three functions once their checks have passed, by cases on the
    open handles and on what the file holds *)

Lemma bind_eq {S A B} (m : M S A) (k : A -> M S B) (s : S) :
  bind m k s =
  match m s with
  | (Ok a, s') => k a s'
  | (Raise e, s') => (Raise e, s')
  end.
Proof. reflexivity. Qed.

Lemma get_timeseries_cases f sym w :
  get_timeseries f sym w =
  match files w !! f with
  | Some h =>
      match group sym h with
      | Some rows => (Ok rows, w)
      | None => (Raise NoSuchNodeError, w)
      end
  | None => (Raise IOError, w)
  end.
Proof.
  unfold get_timeseries, bind, gets.
  destruct (files w !! f) as [h|]; [|reflexivity].
  destruct (group sym h); reflexivity.
Qed.

Lemma open_file_cases file m w :
  open_file file m w =
  if can_open file m w then
    match files w !! file, m with
    | Some _, _ => (Ok file, held file m (logged file m w))
    | None, ModeR => (Raise IOError, logged file m w)
    | None, ModeA =>
        (Ok file,
         held file m
           (set_files (<[file := {| BTC := None; ETH := None |}]> (files w))
              (logged file m w)))
    end
  else (Raise already_opened, logged file m w).
Proof.
  unfold open_file, bind, log_open, modify, gets.
  change (can_open file m (logged file m w)) with (can_open file m w).
  destruct (can_open file m w); cbn [negb]; [|reflexivity].
  cbn [files logged]. destruct (files w !! file), m; reflexivity.
Qed.

Lemma minmax_body_cases sym f w :
  minmax_body sym f w =
  if can_open f ModeR w then
    match files w !! f with
    | Some h =>
        match group sym h with
        | Some rows =>
            (Ok (Some (get_minmax_timeseries rows)), logged f ModeR w)
        | None => (Raise NoSuchNodeError, held f ModeR (logged f ModeR w))
        end
    | None => (Raise IOError, logged f ModeR w)
    end
  else (Raise already_opened, logged f ModeR w).
Proof.
  unfold minmax_body, bind at 1. rewrite open_file_cases.
  destruct (can_open f ModeR w); [|reflexivity].
  destruct (files w !! f) as [h|] eqn:Hf; [|reflexivity].
  unfold get_timeseries, bind, gets, close_file, modify, ret.
  cbn [files held logged]. rewrite Hf.
  destruct (group sym h); [|reflexivity].
  now rewrite released_held.
Qed.

Lemma append_body_cases sym df f w :
  append_body sym df f w =
  if can_open f ModeA w then
    match files w !! f with
    | Some h =>
        match group sym h with
        | Some rows =>
            if appendable rows df
            then (Ok tt,
                  set_files (<[f := set_group sym (rows ++ df) h]> (files w))
                    (logged f ModeA w))
            else (Raise not_appendable, held f ModeA (logged f ModeA w))
        | None => (Raise NoSuchNodeError, held f ModeA (logged f ModeA w))
        end
    | None =>
        (Raise NoSuchNodeError,
         held f ModeA
           (set_files (<[f := {| BTC := None; ETH := None |}]> (files w))
              (logged f ModeA w)))
    end
  else (Raise already_opened, logged f ModeA w).
Proof.
  unfold append_body, bind at 1. rewrite open_file_cases.
  destruct (can_open f ModeA w); [|reflexivity].
  destruct (files w !! f) as [h|] eqn:Hf.
  - unfold get_timeseries, ts_append, bind, gets, close_file, modify, ret,
      raise.
    cbn [files held logged]. rewrite Hf.
    destruct (group sym h) as [rows|] eqn:Hg; [|reflexivity].
    cbn [files held logged]. rewrite Hf, Hg.
    destruct (appendable rows df); [|reflexivity].
    now rewrite released_set_files_held.
  - unfold get_timeseries, bind, gets, raise.
    cbn [files held set_files logged]. rewrite lookup_insert_eq.
    unfold group. cbn. destruct (is_btc sym); reflexivity.
Qed.

Lemma group_set_group sym rows h : group sym (set_group sym rows h) = Some rows.
Proof. unfold group, set_group. destruct (is_btc sym); reflexivity. Qed.

Lemma can_open_logged file m f' m' w :
  can_open file m (logged f' m' w) = can_open file m w.
Proof. reflexivity. Qed.

Lemma get_minmax_daterange_cases symbol sym file w :
  check_symbol symbol = Ok sym ->
  get_minmax_daterange symbol file w =
  let f := normalize file in
  let failed :=
    printed ("Error getting min-max dates from to " ++ f) in
  if can_open f ModeR w then
    match files w !! f with
    | Some h =>
        match group sym h with
        | Some rows =>
            (Ok (Some (get_minmax_timeseries rows)), logged f ModeR w)
        | None => (Ok None, failed (held f ModeR (logged f ModeR w)))
        end
    | None => (Ok None, failed (logged f ModeR w))
    end
  else (Ok None, failed (logged f ModeR w)).
Proof.
  intros Hs. rewrite (get_minmax_daterange_run _ _ _ _ Hs).
  rewrite minmax_body_cases. cbv zeta.
  destruct (can_open (normalize file) ModeR w); [|reflexivity].
  destruct (files w !! normalize file) as [h|]; [|reflexivity].
  destruct (group sym h); reflexivity.
Qed.

(** A read of a file that is open in mode ['a']. *)
Lemma read_datafile_refused symbol sym start end_ file all_data w :
  check_symbol symbol = Ok sym ->
  (all_data = false -> check_range start end_ = Ok tt) ->
  can_open (normalize file) ModeR w = false ->
  read_datafile symbol start end_ file all_data w =
    (Ok None,
     printed ("Error reading from " ++ normalize file)
       (logged (normalize file) ModeR w)).
Proof.
  intros Hs Hr Hc. rewrite (read_datafile_run _ _ _ _ _ _ _ Hs Hr).
  unfold read_body, bind at 1. rewrite open_file_cases, Hc. reflexivity.
Qed.

(** A read of all data, up to the range it reads. *)
Lemma read_body_all symbol sym start end_ file w h rows :
  check_symbol symbol = Ok sym ->
  files w !! normalize file = Some h ->
  group sym h = Some rows ->
  can_open (normalize file) ModeR w = true ->
  read_body symbol sym start end_ (normalize file) true w =
  let f := normalize file in
  let w2 := logged f ModeR (logged f ModeR w) in
  match get_minmax_timeseries rows with
  | (PNone, PNone) => (Ok None, printed ("No data found in " ++ f) w2)
  | (s, e) =>
      match ts_read_range rows s e with
      | Ok d => (Ok (Some d), w2)
      | Raise x => (Raise x, w2)
      end
  end.
Proof.
  intros Hs Hf Hg Hc. unfold read_body. rewrite bind_eq.
  rewrite open_file_cases, Hc, Hf. unfold with_exit.
  rewrite bind_eq, get_timeseries_cases. cbn [files held logged].
  rewrite Hf, Hg. rewrite !bind_eq.
  rewrite (get_minmax_daterange_cases _ _ _ _ Hs). cbv zeta.
  rewrite normalize_idem, can_open_same, can_open_logged, Hc.
  cbn [files held logged]. rewrite Hf, Hg. unfold ret at 1.
  assert (Hw : forall line,
    released (normalize file) ModeR
      (printed line
         (logged (normalize file) ModeR
            (held (normalize file) ModeR (logged (normalize file) ModeR w))))
    = printed line
        (logged (normalize file) ModeR (logged (normalize file) ModeR w))).
  { intros line. now rewrite released_printed, released_logged_held. }
  destruct (get_minmax_timeseries rows) as [s e].
  destruct s as [[| | |]| |], e as [[| | |]| |];
    unfold bind, print, modify, lift, ret;
    try (rewrite Hw; reflexivity);
    try (destruct (ts_read_range rows _ _);
         now rewrite released_logged_held).
Qed.

Lemma check_symbol_known (s : string) :
  s = "BTC" \/ s = "ETH" -> check_symbol (AStr s) = Ok s.
Proof. intros [-> | ->]; reflexivity. Qed.

Lemma check_symbol_other (s : string) :
  upper_string s <> "BTC" -> upper_string s <> "ETH" ->
  check_symbol (AStr s) = Raise symbol_error.
Proof.
  intros Hb He. unfold check_symbol. cbn [py_upper].
  apply String.eqb_neq in Hb, He. now rewrite Hb, He.
Qed.

(** A bare [except] whose handler returns lets nothing through. *)
Lemma try_print_returns {A} (body : M world A) (handler : M world A) w e w' :
  (forall u, exists a u', handler u = (Ok a, u')) ->
  try_except body handler w = (Raise e, w') -> False.
Proof.
  intros Hh. unfold try_except. destruct (body w) as [[a|e0] u].
  - discriminate.
  - destruct (Hh u) as (a & u' & ->). discriminate.
Qed.

(** ** Failures of the storage phase *)

(** C2, as the code has it.  Once the argument checks have passed, none of
    the three functions raises: each returns, and when the body of its [try]
    has raised (no file, no group, a failed nested call), the value is [None]
    and the world is the one the body left with the "Error ..." line
    printed. *)
Theorem storage_failures_are_printed_not_raised
    symbol sym df file start end_ all_data w :
  check_symbol symbol = Ok sym ->
  (all_data = false -> check_range start end_ = Ok tt) ->
  (exists w',
     append_to_datafile symbol (IsDataFrame df) file w = (Ok tt, w') /\
     forall e w1,
       append_body sym df (normalize file) w = (Raise e, w1) ->
       w' = printed ("Error appending to " ++ normalize file) w1) /\
  (exists v w',
     get_minmax_daterange symbol file w = (Ok v, w') /\
     forall e w1,
       minmax_body sym (normalize file) w = (Raise e, w1) ->
       v = None /\
       w' = printed ("Error getting min-max dates from to "
                     ++ normalize file) w1) /\
  (exists v w',
     read_datafile symbol start end_ file all_data w = (Ok v, w') /\
     forall e w1,
       read_body symbol sym start end_ (normalize file) all_data w
         = (Raise e, w1) ->
       v = None /\
       w' = printed ("Error reading from " ++ normalize file) w1).
Proof.
  intros Hs Hr. repeat split.
  - rewrite (append_to_datafile_run _ _ _ _ _ Hs).
    destruct (append_body sym df (normalize file) w) as [[[]|e] w'];
      eexists; (split; [reflexivity|]); intros e' w1 H; congruence.
  - rewrite (get_minmax_daterange_run _ _ _ _ Hs).
    destruct (minmax_body sym (normalize file) w) as [[v|e] w'];
      do 2 eexists; (split; [reflexivity|]); intros e' w1 H;
      [discriminate|]. injection H as _ <-. auto.
  - rewrite (read_datafile_run _ _ _ _ _ _ _ Hs Hr).
    destruct (read_body symbol sym start end_ (normalize file) all_data w)
      as [[v|e] w'];
      do 2 eexists; (split; [reflexivity|]); intros e' w1 H;
      [discriminate|]. injection H as _ <-. auto.
Qed.

Lemma storage_failures_witness :
  check_symbol (AStr "BTC") = Ok "BTC" /\
  exists v w',
    read_datafile (AStr "BTC") PNone PNone (AStr "data.h5") true no_files
      = (Ok v, w') /\
    forall e w1,
      read_body (AStr "BTC") "BTC" PNone PNone (normalize (AStr "data.h5"))
        true no_files = (Raise e, w1) ->
      v = None /\
      w' = printed ("Error reading from " ++ normalize (AStr "data.h5")) w1.
Proof.
  split; [reflexivity|].
  exact (proj2 (proj2
    (storage_failures_are_printed_not_raised
       (AStr "BTC") "BTC" [] (AStr "data.h5") PNone PNone true no_files
       eq_refl (fun H => False_ind _ (diff_true_false H))))).
Defined.

(** C2 at a failing input: reading a file that does not exist returns
    [None] after the line is printed; nothing is raised. *)
Lemma missing_file_read_returns_none :
  read_datafile (AStr "BTC") PNone PNone (AStr "data.h5") true no_files
  = (Ok None,
     {| files := ∅; stdout := ["Error reading from data.h5"];
        opened := [("data.h5", ModeR)]; handles := [] |}).
Proof. vm_compute. reflexivity. Qed.

(** X4.  What the three functions do raise, they raise from their argument
    checks: the world is as it was, no file has been opened. *)
Theorem store_raises_only_before_opening
    symbol data start end_ file all_data w :
  match append_to_datafile symbol data file w with
  | (Raise _, w') => w' = w
  | (Ok _, _) => True
  end /\
  match get_minmax_daterange symbol file w with
  | (Raise _, w') => w' = w
  | (Ok _, _) => True
  end /\
  match read_datafile symbol start end_ file all_data w with
  | (Raise _, w') => w' = w
  | (Ok _, _) => True
  end.
Proof.
  assert (Hp : forall (A : Type) (a : A) line (u : world),
            exists a' u', (print line ;;; ret a) u = (Ok a', u')).
  { intros A a line u. do 2 eexists. reflexivity. }
  repeat split.
  - destruct (append_to_datafile symbol data file w) as [[[]|e] w'] eqn:H;
      [exact I|].
    revert H. unfold append_to_datafile, bind, lift.
    destruct (check_symbol symbol); [|congruence].
    destruct data; [|unfold raise; congruence].
    rewrite ensure_hdf5_str. intros H. exfalso.
    eapply try_print_returns; [|exact H].
    intros u. do 2 eexists. reflexivity.
  - destruct (get_minmax_daterange symbol file w) as [[v|e] w'] eqn:H;
      [exact I|].
    revert H. unfold get_minmax_daterange, bind at 1 2, lift.
    destruct (check_symbol symbol); [|congruence].
    rewrite ensure_hdf5_str. intros H. exfalso.
    eapply try_print_returns; [|exact H]. apply Hp.
  - destruct (read_datafile symbol start end_ file all_data w)
      as [[v|e] w'] eqn:H; [exact I|].
    revert H. unfold read_datafile, bind at 1 2 3, lift, ret.
    destruct all_data.
    + destruct (check_symbol symbol); [|congruence].
      rewrite ensure_hdf5_str. intros H. exfalso.
      eapply try_print_returns; [|exact H]. apply Hp.
    + destruct (check_range start end_); [|congruence].
      destruct (check_symbol symbol); [|congruence].
      rewrite ensure_hdf5_str. intros H. exfalso.
      eapply try_print_returns; [|exact H]. apply Hp.
Qed.

(** ** The range check of [read_datafile] *)


(** Where the check raises [ValueError]: neither bound is a [datetime] or a
    [date], or both are of one class and [start >= end]. *)
Lemma check_range_value_errors (a b : atom) (s e : Z) :
  check_range (PAtom a) (PAtom b)
    = Raise (ValueError "Must pass valid datetime arguments") /\
  ((e <= s)%Z ->
   check_range (PDatetime s) (PDatetime e)
     = Raise (ValueError "Start time must be prior to end time") /\
   check_range (PDate s) (PDate e)
     = Raise (ValueError "Start time must be prior to end time")).
Proof.
  split; [reflexivity|]. intros H. unfold check_range. cbn.
  destruct (Z.leb_spec 0 (s - e)); [|lia].
  destruct (Z.leb_spec 0 ((s - e) * 86400)); [|lia]. auto.
Qed.

(** A [datetime] and a [date] do not subtract either. *)
Lemma check_range_mixed_classes (s e : Z) :
  check_range (PDatetime s) (PDate e) = Raise TypeError /\
  check_range (PDate s) (PDatetime e) = Raise TypeError.
Proof. split; reflexivity. Qed.

(** C6.  With one bound a [datetime] or a [date] and the other not, the
    check [ensure_datetime(start) | ensure_datetime(end)] passes, and the
    read fails in [start - end] with a [TypeError], not with the
    [ValueError] of an invalid range. *)
Theorem read_range_one_valid_bound_is_type_error symbol file (t : Z) a w :
  read_datafile symbol (PDatetime t) (PAtom a) file false w
    = (Raise TypeError, w) /\
  read_datafile symbol (PAtom a) (PDatetime t) file false w
    = (Raise TypeError, w) /\
  read_datafile symbol (PDate t) (PAtom a) file false w
    = (Raise TypeError, w) /\
  read_datafile symbol (PAtom a) (PDate t) file false w
    = (Raise TypeError, w).
Proof. repeat split. Qed.

(** ** A series without rows *)

(** C8, as the code has it.  For a symbol the functions accept and a file
    whose series for it has no row, [get_minmax_daterange] returns the pair
    [(None, None)] and prints nothing; [read_datafile] with [all_data] prints
    "No data found in <file>" and returns [None].  Only a file that was left
    open in mode ['a'] is not read: each function then prints its own error
    line and returns [None]. *)
Theorem empty_series_extent_and_read_all
    symbol sym file start end_ w h :
  check_symbol symbol = Ok sym ->
  files w !! normalize file = Some h ->
  group sym h = Some [] ->
  get_minmax_daterange symbol file w =
    (if can_open (normalize file) ModeR w
     then (Ok (Some (PNone, PNone)), logged (normalize file) ModeR w)
     else (Ok None,
           printed ("Error getting min-max dates from to " ++ normalize file)
             (logged (normalize file) ModeR w))) /\
  read_datafile symbol start end_ file true w =
    (if can_open (normalize file) ModeR w
     then (Ok None,
           printed ("No data found in " ++ normalize file)
             (logged (normalize file) ModeR
                (logged (normalize file) ModeR w)))
     else (Ok None,
           printed ("Error reading from " ++ normalize file)
             (logged (normalize file) ModeR w))).
Proof.
  intros Hs Hf Hg. split.
  - rewrite (get_minmax_daterange_cases _ _ _ _ Hs). cbv zeta.
    rewrite Hf, Hg. reflexivity.
  - destruct (can_open (normalize file) ModeR w) eqn:Hc.
    + rewrite (read_datafile_run _ _ _ _ _ _ _ Hs) by discriminate.
      rewrite (read_body_all _ _ _ _ _ _ _ _ Hs Hf Hg Hc). reflexivity.
    + apply (read_datafile_refused _ _ _ _ _ _ _ Hs); [discriminate|exact Hc].
Qed.

Lemma empty_series_witness :
  get_minmax_daterange (AStr "BTC") (AStr "data") fresh_data_h5 =
    (Ok (Some (PNone, PNone)), logged "data.h5" ModeR fresh_data_h5) /\
  read_datafile (AStr "BTC") PNone PNone (AStr "data") true fresh_data_h5 =
    (Ok None,
     printed "No data found in data.h5"
       (logged "data.h5" ModeR (logged "data.h5" ModeR fresh_data_h5))).
Proof.
  apply (empty_series_extent_and_read_all (AStr "BTC") "BTC" (AStr "data")
           PNone PNone fresh_data_h5 empty_container);
    vm_compute; reflexivity.
Defined.

(** C8 at the empty store: [read_all("BTC")] is [None], after a printed
    line; it is not the empty table. *)
Lemma empty_series_read_all_returns_none :
  read_all "BTC" "data.h5" fresh_data_h5 = Ok None /\
  stdout (snd (read_datafile (AStr "BTC") PNone PNone (AStr "data.h5") true
                 fresh_data_h5)) = ["No data found in data.h5"] /\
  read_all "BTC" "data.h5" fresh_data_h5 <> Ok (Some []).
Proof.
  split; [vm_compute; reflexivity|]. split; [vm_compute; reflexivity|].
  vm_compute. discriminate.
Qed.

(** ** Symbols *)

(** C9, as the code has it.  A string whose upper-cased form is neither
    ['BTC'] nor ['ETH'] is refused with the symbol error, the world untouched,
    by [append_to_datafile], by [get_minmax_daterange] and by [read_datafile]
    with [all_data]; [read_datafile] without [all_data] checks the range
    first and raises the error of that check when it has one. *)
Theorem unknown_symbol_is_rejected_first
    (s : string) data file start end_ w :
  upper_string s <> "BTC" -> upper_string s <> "ETH" ->
  append_to_datafile (AStr s) data file w = (Raise symbol_error, w) /\
  get_minmax_daterange (AStr s) file w = (Raise symbol_error, w) /\
  read_datafile (AStr s) start end_ file true w = (Raise symbol_error, w) /\
  read_datafile (AStr s) start end_ file false w =
    (Raise match check_range start end_ with
           | Raise e => e
           | Ok _ => symbol_error
           end, w).
Proof.
  intros Hb He. pose proof (check_symbol_other s Hb He) as Hc.
  unfold append_to_datafile, get_minmax_daterange, read_datafile, bind, lift,
    ret. rewrite Hc. repeat split.
  destruct (check_range start end_) as [[]|e]; reflexivity.
Qed.

Lemma unknown_symbol_witness :
  append_to_datafile (AStr "xrp") (IsDataFrame [row 1]) (AStr "data.h5")
    fresh_data_h5 = (Raise symbol_error, fresh_data_h5) /\
  get_minmax_daterange (AStr "xrp") (AStr "data.h5") fresh_data_h5
    = (Raise symbol_error, fresh_data_h5) /\
  read_datafile (AStr "xrp") PNone PNone (AStr "data.h5") true fresh_data_h5
    = (Raise symbol_error, fresh_data_h5) /\
  read_datafile (AStr "xrp") PNone PNone (AStr "data.h5") false fresh_data_h5
    = (Raise match check_range PNone PNone with
             | Raise e => e
             | Ok _ => symbol_error
             end, fresh_data_h5).
Proof.
  apply (unknown_symbol_is_rejected_first "xrp"); vm_compute; discriminate.
Defined.

(** C9 at the value ['btc'], which is not one of ['BTC'], ['ETH']: the
    append is not refused; the file is opened and the row is written. *)
Lemma lower_case_symbol_is_accepted :
  fst (append_to_datafile (AStr "btc") (IsDataFrame [row 1]) (AStr "data.h5")
         fresh_data_h5) = Ok tt /\
  files (snd (append_to_datafile (AStr "btc") (IsDataFrame [row 1])
                (AStr "data.h5") fresh_data_h5)) !! "data.h5"
    = Some {| BTC := Some [row 1]; ETH := Some [] |} /\
  opened (snd (append_to_datafile (AStr "btc") (IsDataFrame [row 1])
                 (AStr "data.h5") fresh_data_h5)) = [("data.h5", ModeA)].
Proof. repeat split; vm_compute; reflexivity. Qed.

(** A symbol that is not a string has no [upper]: [AttributeError], before
    anything else in [append_to_datafile] and [get_minmax_daterange]. *)
Lemma non_string_symbol_is_attribute_error data file w :
  append_to_datafile ANone data file w = (Raise AttributeError, w) /\
  get_minmax_daterange ANone file w = (Raise AttributeError, w).
Proof. split; reflexivity. Qed.

(** ** The file a call works on *)

Lemma ts_append_cases f sym data w :
  ts_append f sym data w =
  match files w !! f with
  | Some h =>
      match group sym h with
      | Some rows =>
          if appendable rows data
          then (Ok tt,
                set_files (<[f := set_group sym (rows ++ data) h]> (files w))
                  w)
          else (Raise not_appendable, w)
      | None => (Raise NoSuchNodeError, w)
      end
  | None => (Raise IOError, w)
  end.
Proof.
  unfold ts_append, bind, gets.
  destruct (files w !! f) as [h|]; [|reflexivity].
  destruct (group sym h) as [rows|]; [|reflexivity].
  destruct (appendable rows data); reflexivity.
Qed.

Lemma works_on_ext {A} f (m m' : M world A) :
  (forall w, m w = m' w) -> works_on f m' -> works_on f m.
Proof. intros E H w w' H1 H2. rewrite !E. now apply H. Qed.

(** A step that returns the same everywhere and touches neither the files
    nor the record of the calls. *)
Lemma works_on_step {A} f (r : result A) (g : world -> world) :
  (forall w, files (g w) = files w) ->
  (forall w, opened (g w) = opened w) ->
  (forall w w', handles w = handles w' -> handles (g w) = handles (g w')) ->
  works_on f (fun w => (r, g w)).
Proof.
  intros Hf Ho Hh w w' H1 H2. cbn [fst snd]. rewrite !Hf, Ho.
  split; [auto|]. split; [|reflexivity].
  exists []. split; [now rewrite app_nil_r | intros o []].
Qed.

Lemma works_on_ret {A} f (a : A) : works_on f (ret a).
Proof. apply (works_on_step f (Ok a) (fun w => w)); auto. Qed.

Lemma works_on_raise {A} f e : works_on f (@raise world A e).
Proof. apply (works_on_step f (Raise e) (fun w => w)); auto. Qed.

Lemma works_on_lift {A} f (r : result A) : works_on f (lift r).
Proof. apply (works_on_step f r (fun w => w)); auto. Qed.

Lemma works_on_print f line : works_on f (print line).
Proof. apply (works_on_step f (Ok tt) (printed line)); auto. Qed.

Lemma works_on_close f file m : works_on f (close_file file m).
Proof.
  apply (works_on_step f (Ok tt) (released file m)); auto.
  intros w w' H. cbn. now rewrite H.
Qed.

Lemma works_on_bind {A B} f (m : M world A) (k : A -> M world B) :
  works_on f m -> (forall a, works_on f (k a)) -> works_on f (bind m k).
Proof.
  intros Hm Hk w w' H1 H2. rewrite !bind_eq.
  destruct (Hm w w' H1 H2) as ((Hr & Hf & Hh) & (l & Hl & Hin) & Hfr).
  destruct (m w) as [[a|e] s], (m w') as [[a'|e'] s'];
    cbn [fst snd] in Hr, Hf, Hh, Hl, Hfr; try discriminate.
  - injection Hr as <-.
    destruct (Hk a s s' Hf Hh) as (H3 & (l2 & Hl2 & Hin2) & Hfr2).
    split; [exact H3|]. split.
    + exists (l ++ l2)%list. split; [now rewrite Hl2, Hl, app_assoc|].
      intros o Ho. apply in_app_or in Ho as [Ho | Ho]; auto.
    + intros name Hn. now rewrite (Hfr2 name Hn), (Hfr name Hn).
  - injection Hr as <-. cbn [fst snd].
    split; [auto|]. split; [exists l; auto|exact Hfr].
Qed.

Lemma works_on_try {A} f (body handler : M world A) :
  works_on f body -> works_on f handler -> works_on f (try_except body handler).
Proof.
  intros Hb Hh w w' H1 H2. unfold try_except.
  destruct (Hb w w' H1 H2) as ((Hr & Hf & Hhs) & (l & Hl & Hin) & Hfr).
  destruct (body w) as [[a|e] s], (body w') as [[a'|e'] s'];
    cbn [fst snd] in Hr, Hf, Hhs, Hl, Hfr; try discriminate.
  - cbn [fst snd]. split; [auto|]. split; [exists l; auto|exact Hfr].
  - destruct (Hh s s' Hf Hhs) as (H3 & (l2 & Hl2 & Hin2) & Hfr2).
    split; [exact H3|]. split.
    + exists (l ++ l2)%list. split; [now rewrite Hl2, Hl, app_assoc|].
      intros o Ho. apply in_app_or in Ho as [Ho | Ho]; auto.
    + intros name Hn. now rewrite (Hfr2 name Hn), (Hfr name Hn).
Qed.

Lemma works_on_with_exit {A} f (body : M world A) file m :
  works_on f body -> works_on f (with_exit body (released file m)).
Proof.
  intros Hb w w' H1 H2. unfold with_exit.
  destruct (Hb w w' H1 H2) as ((Hr & Hf & Hhs) & (l & Hl & Hin) & Hfr).
  destruct (body w) as [r s], (body w') as [r' s'].
  cbn [fst snd] in *. cbn [files opened handles released].
  rewrite Hhs. split; [auto|]. split; [exists l; auto|exact Hfr].
Qed.

Lemma works_on_open f m : works_on f (open_file f m).
Proof.
  intros w w' H1 H2. rewrite !open_file_cases.
  assert (Hc : can_open f m w' = can_open f m w).
  { unfold can_open. now rewrite H2. }
  rewrite Hc, <- H1.
  assert (Hl : forall o, In o [(f, m)] -> fst o = f).
  { intros o [<- | []]. reflexivity. }
  assert (Hlog : exists l, (opened w ++ [(f, m)])%list = (opened w ++ l)%list
                           /\ forall o, In o l -> fst o = f).
  { exists [(f, m)]. auto. }
  destruct (can_open f m w).
  - destruct (files w !! f) as [h|] eqn:Hf.
    + cbn [fst snd]. cbn [files opened handles held logged].
      rewrite Hf, H2. auto.
    + destruct m; cbn [fst snd];
        cbn [files opened handles held set_files logged].
      * rewrite Hf. auto.
      * rewrite !lookup_insert_eq, H2. split; [auto|]. split; [exact Hlog|].
        intros name Hn. now apply lookup_insert_ne.
  - cbn [fst snd]. cbn [files opened handles logged]. auto.
Qed.

Lemma works_on_at {A} f (r : result A) (w w' : world) :
  files w !! f = files w' !! f -> handles w = handles w' ->
  (fst (r, w) = fst (r, w') /\
   files (snd (r, w)) !! f = files (snd (r, w')) !! f /\
   handles (snd (r, w)) = handles (snd (r, w'))) /\
  (exists l, opened (snd (r, w)) = (opened w ++ l)%list /\
             forall o, In o l -> fst o = f) /\
  (forall name, name <> f -> files (snd (r, w)) !! name = files w !! name).
Proof.
  intros H1 H2. cbn [fst snd]. split; [auto|]. split; [|reflexivity].
  exists []. split; [now rewrite app_nil_r | intros o []].
Qed.

Lemma works_on_get_timeseries f sym : works_on f (get_timeseries f sym).
Proof.
  intros w w' H1 H2. rewrite !get_timeseries_cases, <- H1.
  pose proof (fun r : result (list PriceRecord) =>
                works_on_at f r w w' H1 H2) as Hs.
  destruct (files w !! f) as [h|]; [|apply Hs].
  destruct (group sym h); apply Hs.
Qed.

Lemma works_on_ts_append f sym data : works_on f (ts_append f sym data).
Proof.
  intros w w' H1 H2. rewrite !ts_append_cases, <- H1.
  pose proof (fun r : result unit => works_on_at f r w w' H1 H2) as Hs.
  destruct (files w !! f) as [h|]; [|apply Hs].
  destruct (group sym h) as [rows|]; [|apply Hs].
  destruct (appendable rows data); [|apply Hs].
  cbn [fst snd]. cbn [files opened handles set_files].
  rewrite !lookup_insert_eq. split; [auto|]. split.
  - exists []. split; [now rewrite app_nil_r | intros o []].
  - intros name Hne. now apply lookup_insert_ne.
Qed.

(** The handle [open_file] returns is the name it was given. *)
Lemma works_on_opened {B} f m (k : string -> M world B) :
  works_on f (k f) -> works_on f (bind (open_file f m) k).
Proof.
  intros Hk. apply (works_on_ext _ _ (bind (open_file f m) (fun _ => k f))).
  - intros w. rewrite !bind_eq, open_file_cases.
    destruct (can_open f m w); [|reflexivity].
    destruct (files w !! f), m; reflexivity.
  - apply works_on_bind; [apply works_on_open | intros _; exact Hk].
Qed.

Ltac works_on_step :=
  first
    [ apply works_on_opened
    | apply works_on_ret | apply works_on_raise | apply works_on_lift
    | apply works_on_print | apply works_on_close | apply works_on_open
    | apply works_on_get_timeseries | apply works_on_ts_append
    | apply works_on_with_exit
    | apply works_on_bind; [|intros ?]
    | apply works_on_try
    | progress cbv zeta
    | match goal with
      | |- works_on _ (match ?x with _ => _ end) => destruct x
      | |- works_on _ (if ?x then _ else _) => destruct x
      end ].

Lemma works_on_body_minmax sym f : works_on f (minmax_body sym f).
Proof. unfold minmax_body. repeat works_on_step. Qed.

Lemma works_on_extent symbol file :
  works_on (normalize file) (get_minmax_daterange symbol file).
Proof.
  unfold get_minmax_daterange. apply works_on_bind; [works_on_step|].
  intros sym. rewrite ensure_hdf5_str.
  apply (works_on_ext _ _
           (try_except (minmax_body sym (normalize file))
              (print ("Error getting min-max dates from to "
                      ++ normalize file) ;;; ret None)));
    [reflexivity|].
  apply works_on_try; [apply works_on_body_minmax | repeat works_on_step].
Qed.

Lemma works_on_append symbol data file :
  works_on (normalize file) (append_to_datafile symbol data file).
Proof.
  unfold append_to_datafile. apply works_on_bind; [works_on_step|].
  intros sym. destruct data as [df|v]; [|works_on_step].
  rewrite ensure_hdf5_str.
  apply (works_on_ext _ _
           (try_except (append_body sym df (normalize file))
              (print ("Error appending to " ++ normalize file))));
    [reflexivity|].
  unfold append_body. repeat works_on_step.
Qed.

Lemma works_on_read symbol start end_ file all_data :
  works_on (normalize file) (read_datafile symbol start end_ file all_data).
Proof.
  unfold read_datafile. apply works_on_bind; [repeat works_on_step|].
  intros _. apply works_on_bind; [works_on_step|].
  intros sym. rewrite ensure_hdf5_str.
  apply (works_on_ext _ _
           (try_except
              (read_body symbol sym start end_ (normalize file) all_data)
              (print ("Error reading from " ++ normalize file) ;;;
               ret None)));
    [reflexivity|].
  apply works_on_try; [|repeat works_on_step].
  unfold read_body. apply works_on_opened.
  apply works_on_with_exit.
  apply works_on_bind; [works_on_step|]. intros ts.
  apply works_on_bind.
  - destruct all_data; [|works_on_step].
    apply works_on_bind; [|intros ?; repeat works_on_step].
    rewrite <- (normalize_idem file) at 1. apply works_on_extent.
  - intros [s e]. repeat works_on_step.
Qed.

(** A call that returns has opened its file. *)
Lemma returning_call_opens_its_file
    symbol data start end_ file all_data w :
  (forall a w',
     append_to_datafile symbol data file w = (Ok a, w') ->
     exists l, opened w' = (opened w ++ (normalize file, ModeA) :: l)%list) /\
  (forall a w',
     get_minmax_daterange symbol file w = (Ok a, w') ->
     exists l, opened w' = (opened w ++ (normalize file, ModeR) :: l)%list) /\
  (forall a w',
     read_datafile symbol start end_ file all_data w = (Ok a, w') ->
     exists l, opened w' = (opened w ++ (normalize file, ModeR) :: l)%list).
Proof.
  split; [|split]; intros a w'.
  - unfold append_to_datafile. rewrite bind_eq. unfold lift.
    destruct (check_symbol symbol) as [sym|e]; [|discriminate].
    destruct data as [df|v]; [|discriminate].
    rewrite ensure_hdf5_str. rewrite bind_eq. unfold lift, try_except.
    rewrite append_body_cases.
    destruct (can_open (normalize file) ModeA w).
    + destruct (files w !! normalize file) as [h|].
      * destruct (group sym h) as [rows|].
        -- destruct (appendable rows df); intros H; injection H as _ <-;
             exists []; reflexivity.
        -- intros H. injection H as _ <-. exists []. reflexivity.
      * intros H. injection H as _ <-. exists []. reflexivity.
    + intros H. injection H as _ <-. exists []. reflexivity.
  - unfold get_minmax_daterange. rewrite bind_eq. unfold lift.
    destruct (check_symbol symbol) as [sym|e] eqn:Hs; [|discriminate].
    intros H.
    assert (H' : get_minmax_daterange symbol file w = (Ok a, w')).
    { unfold get_minmax_daterange. rewrite bind_eq. unfold lift.
      now rewrite Hs. }
    rewrite (get_minmax_daterange_cases _ _ _ _ Hs) in H'. cbv zeta in H'.
    destruct (can_open (normalize file) ModeR w).
    + destruct (files w !! normalize file) as [h|].
      * destruct (group sym h) as [rows|]; injection H' as _ <-;
          exists []; reflexivity.
      * injection H' as _ <-. exists []. reflexivity.
    + injection H' as _ <-. exists []. reflexivity.
  - intros H.
    assert (Hchk : exists sym, check_symbol symbol = Ok sym /\
                     (all_data = false -> check_range start end_ = Ok tt)).
    { revert H. unfold read_datafile. rewrite bind_eq.
      destruct all_data.
      - unfold ret. rewrite bind_eq. unfold lift.
        destruct (check_symbol symbol) as [sym|e]; [|discriminate].
        intros _. exists sym. split; [reflexivity|discriminate].
      - unfold lift. destruct (check_range start end_) as [[]|e];
          [|discriminate].
        rewrite bind_eq.
        destruct (check_symbol symbol) as [sym|e]; [|discriminate].
        intros _. exists sym. auto. }
    destruct Hchk as (sym & Hs & Hr).
    rewrite (read_datafile_run _ _ _ _ _ _ _ Hs Hr) in H.
    unfold read_body in H. rewrite bind_eq, open_file_cases in H.
    destruct (can_open (normalize file) ModeR w).
    + destruct (files w !! normalize file) as [h|].
      * match type of H with
        | context [with_exit ?b ?x ?w1] =>
            assert (Hb : works_on (normalize file) (with_exit b x));
              [|destruct (Hb w1 w1 eq_refl eq_refl)
                  as (_ & (l & Hl & _) & _);
                destruct (with_exit b x w1) as [[v|e] w2]]
        end.
        { apply works_on_with_exit.
          apply works_on_bind; [works_on_step|]. intros ts.
          apply works_on_bind.
          - destruct all_data; [|works_on_step].
            apply works_on_bind; [|intros ?; repeat works_on_step].
            rewrite <- (normalize_idem file) at 1. apply works_on_extent.
          - intros [s e]. repeat works_on_step. }
        -- injection H as _ <-. cbn [snd opened held logged] in Hl.
           exists l. now rewrite Hl, <- app_assoc.
        -- injection H as _ <-. cbn [snd opened held logged printed] in Hl |- *.
           exists l. now rewrite Hl, <- app_assoc.
      * injection H as _ <-. exists []. reflexivity.
    + injection H as _ <-. exists []. reflexivity.
Qed.

(** ** File names, continued *)

(** C10, as the code has it.  Whatever the [file] argument is, each of the
    three functions works on the file [normalize file], that is
    [ensure_hdf5(str(file))], and on no other: it opens that file when it
    returns, it opens and changes no other file, and what it does depends on
    that file alone.  The name ends in ['.h5']; for a string it is the
    string itself when it ends in ['.h5'] and the string with ['.h5']
    appended otherwise, so ['data'] and ['data.h5'] name one file.  No
    [file] argument is refused. *)
Theorem file_name_is_normalized symbol data start end_ all_data file w :
  append_to_datafile symbol data file w
    = append_to_datafile symbol data (AStr (normalize file)) w /\
  get_minmax_daterange symbol file w
    = get_minmax_daterange symbol (AStr (normalize file)) w /\
  read_datafile symbol start end_ file all_data w
    = read_datafile symbol start end_ (AStr (normalize file)) all_data w /\
  last3 (normalize file) = ".h5" /\
  ensure_hdf5 (AStr (py_str file)) = Ok (normalize file) /\
  (forall name : string,
     normalize (AStr name)
       = if String.eqb (last3 name) ".h5" then name else name ++ ".h5") /\
  normalize (AStr "data") = "data.h5" /\
  normalize (AStr "data.h5") = "data.h5" /\
  works_on (normalize file) (append_to_datafile symbol data file) /\
  works_on (normalize file) (get_minmax_daterange symbol file) /\
  works_on (normalize file)
    (read_datafile symbol start end_ file all_data) /\
  (forall a w',
     append_to_datafile symbol data file w = (Ok a, w') ->
     exists l, opened w' = (opened w ++ (normalize file, ModeA) :: l)%list) /\
  (forall a w',
     get_minmax_daterange symbol file w = (Ok a, w') ->
     exists l, opened w' = (opened w ++ (normalize file, ModeR) :: l)%list) /\
  (forall a w',
     read_datafile symbol start end_ file all_data w = (Ok a, w') ->
     exists l, opened w' = (opened w ++ (normalize file, ModeR) :: l)%list).
Proof.
  split.
  { unfold append_to_datafile. now rewrite !ensure_hdf5_str, normalize_idem. }
  split.
  { unfold get_minmax_daterange.
    now rewrite !ensure_hdf5_str, normalize_idem. }
  split.
  { unfold read_datafile. now rewrite !ensure_hdf5_str, normalize_idem. }
  split; [apply last3_normalize|].
  split; [reflexivity|]. split; [reflexivity|].
  split; [reflexivity|]. split; [reflexivity|].
  split; [apply works_on_append|]. split; [apply works_on_extent|].
  split; [apply works_on_read|].
  apply returning_call_opens_its_file.
Qed.

(** C10 at the file name [5], an [int]: it is not refused; the file
    ['5.h5'] is opened and its extent returned. *)
Lemma integer_file_name_is_accepted :
  fst (get_minmax_daterange (AStr "BTC") (AInt 5)
         (store [("5.h5", empty_container)])) = Ok (Some (PNone, PNone)) /\
  opened (snd (get_minmax_daterange (AStr "BTC") (AInt 5)
                 (store [("5.h5", empty_container)]))) = [("5.h5", ModeR)].
Proof. split; vm_compute; reflexivity. Qed.

(** ** Appending what is new *)

(** C1.  An environment whose file is ['other.h5'], both files fresh, the
    same two fetched rows twice.  The extent is read from ['other.h5'] and
    the rows are appended to ['data.h5'] (the call names no file), so the
    second update finds the same empty extent, drops no row and hands the
    same rows to tstables again.  They start before the end of the stored
    rows and are refused: "Error appending to data.h5" is printed, the
    success line follows it, and [f.close()] is not reached.  ['data.h5']
    holds the rows once but stays open in mode ['a'], so its extent and its
    rows, which were read after the first update, are not read after the
    second; ['other.h5'] never receives a row. *)
Theorem update_twice_differs_from_update_once :
  exists w1 w2,
    update_all_historical fetched env_other two_fresh_files = (Ok tt, w1) /\
    update_all_historical fetched env_other w1 = (Ok tt, w2) /\
    stdout w1
      = ["All available historical data for BTC has been successfully loaded!"]
    /\
    stdout w2
      = ["All available historical data for BTC has been successfully loaded!";
         "Error appending to data.h5";
         "All available historical data for BTC has been successfully loaded!"]
    /\
    files w1 !! "data.h5"
      = Some {| BTC := Some [row 1; row 2]; ETH := Some [] |} /\
    files w2 = files w1 /\
    handles w1 = [] /\
    handles w2 = [("data.h5", ModeA)] /\
    extent "BTC" "data.h5" w1 = Ok (Some (PDatetime 1, PDatetime 2)) /\
    extent "BTC" "data.h5" w2 = Ok None /\
    read_all "BTC" "data.h5" w1 = Ok (Some [row 1; row 2]) /\
    read_all "BTC" "data.h5" w2 = Ok None /\
    extent "BTC" "other.h5" w2 = Ok (Some (PNone, PNone)) /\
    read_all "BTC" "other.h5" w2 = Ok None.
Proof.
  do 2 eexists. split; [vm_compute; reflexivity|].
  split; [vm_compute; reflexivity|].
  repeat split; vm_compute; reflexivity.
Qed.

(** [append_to_datafile] itself compares nothing: the same rows appended
    again are handed to tstables again, refused, and the file stays open. *)
Lemma append_twice_leaves_the_file_open :
  exists w1 w2,
    append_to_datafile (AStr "BTC") (IsDataFrame fetched) (AStr "data.h5")
      fresh_data_h5 = (Ok tt, w1) /\
    append_to_datafile (AStr "BTC") (IsDataFrame fetched) (AStr "data.h5")
      w1 = (Ok tt, w2) /\
    stdout w1 = [] /\
    stdout w2 = ["Error appending to data.h5"] /\
    files w2 = files w1 /\
    handles w1 = [] /\
    handles w2 = [("data.h5", ModeA)] /\
    read_all "BTC" "data.h5" w1 = Ok (Some [row 1; row 2]) /\
    read_all "BTC" "data.h5" w2 = Ok None.
Proof.
  do 2 eexists. split; [vm_compute; reflexivity|].
  split; [vm_compute; reflexivity|].
  repeat split; vm_compute; reflexivity.
Qed.

Lemma fold_max_ge (t : Z) (ts : list Z) (x : Z) :
  In x (t :: ts) -> (x <= fold_right Z.max t ts)%Z.
Proof.
  induction ts as [|u ts IH]; cbn.
  - intros [-> | []]. lia.
  - intros [-> | [-> | H]].
    + specialize (IH (or_introl eq_refl)). lia.
    + lia.
    + specialize (IH (or_intror H)). lia.
Qed.

Lemma fold_max_in (r0 : PriceRecord) (rows : list PriceRecord) :
  exists x, In x (r0 :: rows) /\
            timestamp x
              = fold_right Z.max (timestamp r0) (map timestamp rows).
Proof.
  induction rows as [|r1 rows IH]; cbn.
  - exists r0. auto.
  - destruct IH as (x & Hx & Hxm).
    destruct (Z.max_spec (timestamp r1)
                (fold_right Z.max (timestamp r0) (map timestamp rows)))
      as [[_ ->] | [_ ->]].
    + exists x. split; [|exact Hxm]. destruct Hx; auto.
    + exists r1. auto.
Qed.

(** The upper end of the extent bounds every stored timestamp. *)
Lemma max_timestamp_bounds (rows : list PriceRecord) (r : PriceRecord) :
  In r rows ->
  exists m, max_timestamp rows = PDatetime m /\ (timestamp r <= m)%Z.
Proof.
  intros Hin. unfold max_timestamp, get_minmax_timeseries.
  apply (in_map timestamp) in Hin.
  destruct (map timestamp rows) as [|t ts]; [destruct Hin|].
  eexists. split; [reflexivity|]. now apply fold_max_ge.
Qed.

Lemma filter_none_above (m : Z) (hist : list PriceRecord) :
  (forall r, In r hist -> (timestamp r <= m)%Z) ->
  List.filter (fun r => (m <? timestamp r)%Z) hist = [].
Proof.
  induction hist as [|r hist IH]; intros H; [reflexivity|]. cbn.
  destruct (Z.ltb_spec m (timestamp r)) as [Hlt|_].
  - specialize (H r (or_introl eq_refl)). lia.
  - apply IH. intros r' Hr'. apply H. now right.
Qed.

(** Once the new rows of a fetch are stored behind the old ones, the same
    fetch has no new row. *)
Lemma nothing_new_after_append (hist rows : list PriceRecord) new_df :
  select_new_values hist (fst (get_minmax_timeseries rows))
    (max_timestamp rows) = Some new_df ->
  select_new_values hist (fst (get_minmax_timeseries (rows ++ new_df)))
    (max_timestamp (rows ++ new_df)) = None.
Proof.
  intros Hsel.
  assert (Hall : forall r, In r hist ->
            exists m, max_timestamp (rows ++ new_df) = PDatetime m /\
                      (timestamp r <= m)%Z).
  { intros r Hr. unfold select_new_values in Hsel.
    destruct (max_timestamp rows) as [a| m |d] eqn:Hmax.
    - apply max_timestamp_bounds, in_or_app. right.
      destruct hist; [destruct Hr|]. injection Hsel as <-. exact Hr.
    - destruct (m <? timestamp r)%Z eqn:Hlt.
      + apply max_timestamp_bounds, in_or_app. right.
        destruct (List.filter _ hist) eqn:Hf; [discriminate|].
        injection Hsel as <-. rewrite <- Hf. apply filter_In. auto.
      + apply Z.ltb_ge in Hlt.
        unfold max_timestamp, get_minmax_timeseries in Hmax.
        destruct rows as [|r0 rows]; [discriminate|].
        cbn [map snd] in Hmax. injection Hmax as Hm.
        destruct (fold_max_in r0 rows) as (x & Hx & Hxm).
        destruct (max_timestamp_bounds ((r0 :: rows) ++ new_df) x)
          as (m' & Hm' & Hle); [apply in_or_app; auto|].
        exists m'. split; [exact Hm'|]. lia.
    - apply max_timestamp_bounds, in_or_app. right.
      destruct hist; [destruct Hr|]. injection Hsel as <-. exact Hr. }
  unfold select_new_values.
  destruct (max_timestamp (rows ++ new_df)) as [a| m |d] eqn:Hmax.
  - destruct hist as [|r hist]; [reflexivity|].
    destruct (Hall r (or_introl eq_refl)) as (m & Hm & _). discriminate.
  - replace (List.filter (fun r => (m <? timestamp r)%Z) hist)
      with (@nil PriceRecord); [reflexivity|].
    symmetry. apply filter_none_above. intros r Hr.
    destruct (Hall r Hr) as (m' & Hm' & Hle). now injection Hm' as <-.
  - destruct hist as [|r hist]; [reflexivity|].
    destruct (Hall r (or_introl eq_refl)) as (m & Hm & _). discriminate.
Qed.

(** ** Rows that tstables accepts *)

Lemma increasing_cons (a : Z) (l : list Z) :
  increasing (a :: l) = true <->
  (forall x, In x l -> (a < x)%Z) /\ increasing l = true.
Proof.
  revert a. induction l as [|b l IH]; intros a.
  - cbn. split; [intros _; split; [intros x []|reflexivity]|reflexivity].
  - change (increasing (a :: b :: l))
      with ((a <? b)%Z && increasing (b :: l)).
    rewrite andb_true_iff, Z.ltb_lt. split.
    + intros [Hab Hl]. split; [|exact Hl].
      apply IH in Hl as [Hb _].
      intros x [<- | Hx]; [exact Hab|]. specialize (Hb x Hx). lia.
    + intros [Ha Hl]. split; [apply Ha; now left | exact Hl].
Qed.

Lemma increasing_ascending (l : list Z) :
  increasing l = true -> ascending l = true.
Proof.
  induction l as [|a l IH]; [reflexivity|].
  destruct l as [|b l]; [reflexivity|].
  change (increasing (a :: b :: l))
    with ((a <? b)%Z && increasing (b :: l)).
  change (ascending (a :: b :: l))
    with ((a <=? b)%Z && ascending (b :: l)).
  rewrite !andb_true_iff, Z.ltb_lt, Z.leb_le. intros [H1 H2].
  split; [lia | now apply IH].
Qed.

Lemma increasing_filter (p : PriceRecord -> bool) (l : list PriceRecord) :
  increasing (map timestamp l) = true ->
  increasing (map timestamp (List.filter p l)) = true.
Proof.
  induction l as [|r l IH]; [reflexivity|]. cbn [map List.filter].
  intros H. apply increasing_cons in H as [Hr Hl].
  destruct (p r); [|now apply IH]. cbn [map].
  apply increasing_cons. split; [|now apply IH].
  intros x Hx. apply Hr. apply in_map_iff in Hx as (y & <- & Hy).
  apply filter_In in Hy as [Hy _]. now apply in_map.
Qed.

(** Rows that extend a series are rows tstables accepts. *)
Lemma extends_appendable (rows data : list PriceRecord) :
  extends rows data = true -> appendable rows data = true.
Proof.
  unfold extends, appendable. destruct data as [|d data]; [discriminate|].
  rewrite andb_true_iff. intros [Hinc Hall].
  rewrite (increasing_ascending _ Hinc). cbn [andb].
  destruct rows as [|r0 rows]; [reflexivity|]. cbn [map].
  destruct (fold_max_in r0 rows) as (x & Hx & <-).
  rewrite forallb_forall in Hall. specialize (Hall x Hx).
  apply Z.leb_le. apply Z.ltb_lt in Hall. lia.
Qed.

(** What [select_new_values] keeps of a fetch in strictly ascending order
    extends the series. *)
Lemma select_new_values_extends (hist rows : list PriceRecord) old_min new_df :
  increasing (map timestamp hist) = true ->
  select_new_values hist old_min (max_timestamp rows) = Some new_df ->
  extends rows new_df = true.
Proof.
  intros Hinc. unfold select_new_values, max_timestamp, get_minmax_timeseries.
  destruct rows as [|r0 rows]; cbn [map snd].
  - destruct hist as [|r hist]; [discriminate|]. intros H. injection H as <-.
    unfold extends. now rewrite Hinc.
  - set (m := fold_right Z.max (timestamp r0) (map timestamp rows)).
    pose proof (increasing_filter (fun r => (m <? timestamp r)%Z) hist Hinc)
      as Hf.
    destruct (List.filter (fun r => (m <? timestamp r)%Z) hist)
      as [|d ds] eqn:E; [discriminate|].
    intros H. injection H as <-. unfold extends. rewrite Hf. cbn [andb].
    assert (Hd : (m < timestamp d)%Z).
    { assert (Hin : In d (List.filter (fun r => (m <? timestamp r)%Z) hist))
        by (rewrite E; now left).
      apply filter_In in Hin as [_ Hin]. now apply Z.ltb_lt. }
    apply forallb_forall. intros x Hx. apply Z.ltb_lt.
    assert (Hle : (timestamp x <= m)%Z).
    { apply fold_max_ge. change (In (timestamp x)
                                   (map timestamp (r0 :: rows))).
      now apply in_map. }
    lia.
Qed.

Lemma closed_can_open file m w :
  closed file w = true -> can_open file m w = true.
Proof.
  unfold closed, can_open. intros H. rewrite forallb_forall in H.
  apply forallb_forall. intros x Hx. now rewrite (H x Hx).
Qed.

Lemma append_to_datafile_cases symbol sym df file w :
  check_symbol symbol = Ok sym ->
  append_to_datafile symbol (IsDataFrame df) file w =
  let f := normalize file in
  let failed := printed ("Error appending to " ++ f) in
  if can_open f ModeA w then
    match files w !! f with
    | Some h =>
        match group sym h with
        | Some rows =>
            if appendable rows df
            then (Ok tt,
                  set_files (<[f := set_group sym (rows ++ df) h]> (files w))
                    (logged f ModeA w))
            else (Ok tt, failed (held f ModeA (logged f ModeA w)))
        | None => (Ok tt, failed (held f ModeA (logged f ModeA w)))
        end
    | None =>
        (Ok tt,
         failed
           (held f ModeA
              (set_files (<[f := {| BTC := None; ETH := None |}]> (files w))
                 (logged f ModeA w))))
    end
  else (Ok tt, failed (logged f ModeA w)).
Proof.
  intros Hs. rewrite (append_to_datafile_run _ _ _ _ _ Hs).
  rewrite append_body_cases. cbv zeta.
  destruct (can_open (normalize file) ModeA w); [|reflexivity].
  destruct (files w !! normalize file) as [h|]; [|reflexivity].
  destruct (group sym h) as [rows|]; [|reflexivity].
  destruct (appendable rows df); reflexivity.
Qed.

(** [update_all_historical] for an environment whose file is ['data.h5'],
    on a world where that file has the series of the symbol and is not
    open, for a fetch in strictly ascending order. *)
Lemma update_all_historical_run hist f s wd w h rows :
  s = "BTC" \/ s = "ETH" ->
  normalize (AStr f) = "data.h5" ->
  files w !! "data.h5" = Some h -> group s h = Some rows ->
  closed "data.h5" w = true ->
  increasing (map timestamp hist) = true ->
  update_all_historical hist
    {| file := Some f; symbol := Some s; window := Some wd |} w =
  match select_new_values hist (fst (get_minmax_timeseries rows))
          (max_timestamp rows) with
  | None =>
      (Ok tt,
       printed ("No new data for " ++ s ++ " found - no data saved locally")
         (logged "data.h5" ModeR w))
  | Some new_df =>
      (Ok tt,
       printed ("All available historical data for " ++ s ++
                " has been successfully loaded!")
         (set_files (<["data.h5" := set_group s (rows ++ new_df) h]> (files w))
            (logged "data.h5" ModeA (logged "data.h5" ModeR w))))
  end.
Proof.
  intros Hs Hn Hf Hg Hcl Hinc. pose proof (check_symbol_known s Hs) as Hc.
  unfold update_all_historical. rewrite bind_eq. unfold lift.
  cbn [check_key_attributes file symbol window]. rewrite bind_eq.
  rewrite (get_minmax_daterange_cases _ _ _ _ Hc). cbv zeta.
  rewrite Hn, (closed_can_open _ ModeR _ Hcl), Hf, Hg.
  unfold max_timestamp.
  destruct (get_minmax_timeseries rows) as [old_min old_max] eqn:Hmm.
  cbn [fst snd].
  destruct (select_new_values hist old_min old_max) as [new_df|] eqn:Hsel;
    [|reflexivity].
  rewrite bind_eq, (append_to_datafile_cases _ _ _ _ _ Hc). cbv zeta.
  change (normalize (AStr "data.h5")) with "data.h5".
  rewrite can_open_logged, (closed_can_open _ ModeA _ Hcl).
  cbn [files logged]. rewrite Hf, Hg.
  assert (Ha : appendable rows new_df = true).
  { apply extends_appendable.
    apply (select_new_values_extends hist rows old_min); [exact Hinc|].
    unfold max_timestamp. now rewrite Hmm. }
  rewrite Ha. reflexivity.
Qed.

(** X3.  Where the file of the environment is the default one and is not
    open, and the fetch is in strictly ascending order of timestamp, the
    update is idempotent: both updates return and leave no handle open, and
    the second leaves the files, every extent and every read as the first
    left them. *)
Theorem update_idempotent_on_default_file hist f s wd w h rows :
  s = "BTC" \/ s = "ETH" ->
  normalize (AStr f) = "data.h5" ->
  files w !! "data.h5" = Some h -> group s h = Some rows ->
  closed "data.h5" w = true ->
  increasing (map timestamp hist) = true ->
  exists w1 w2,
    update_all_historical hist
      {| file := Some f; symbol := Some s; window := Some wd |} w
      = (Ok tt, w1) /\
    update_all_historical hist
      {| file := Some f; symbol := Some s; window := Some wd |} w1
      = (Ok tt, w2) /\
    files w2 = files w1 /\
    handles w1 = handles w /\
    handles w2 = handles w /\
    (forall symbol file,
       fst (get_minmax_daterange symbol file w2)
         = fst (get_minmax_daterange symbol file w1)) /\
    (forall symbol start end_ file all_data,
       fst (read_datafile symbol start end_ file all_data w2)
         = fst (read_datafile symbol start end_ file all_data w1)).
Proof.
  intros Hs Hn Hf Hg Hcl Hinc.
  assert (Hfiles : exists w1 w2,
    update_all_historical hist
      {| file := Some f; symbol := Some s; window := Some wd |} w
      = (Ok tt, w1) /\
    update_all_historical hist
      {| file := Some f; symbol := Some s; window := Some wd |} w1
      = (Ok tt, w2) /\
    files w2 = files w1 /\ handles w1 = handles w /\ handles w2 = handles w).
  { rewrite (update_all_historical_run hist f s wd w h rows Hs Hn Hf Hg Hcl
               Hinc).
    destruct (select_new_values hist (fst (get_minmax_timeseries rows))
                (max_timestamp rows)) as [new_df|] eqn:Hsel.
    - eexists. eexists. split; [reflexivity|].
      rewrite (update_all_historical_run hist f s wd _
                 (set_group s (rows ++ new_df) h) (rows ++ new_df) Hs Hn).
      + rewrite (nothing_new_after_append _ _ _ Hsel).
        repeat split; reflexivity.
      + cbn. apply lookup_insert_eq.
      + apply group_set_group.
      + exact Hcl.
      + exact Hinc.
    - eexists. eexists. split; [reflexivity|].
      rewrite (update_all_historical_run hist f s wd _ h rows Hs Hn);
        [|exact Hf|exact Hg|exact Hcl|exact Hinc].
      rewrite Hsel. repeat split; reflexivity. }
  destruct Hfiles as (w1 & w2 & H1 & H2 & H3 & H4 & H5).
  exists w1, w2. repeat split; try assumption.
  - intros symbol file.
    apply (works_on_extent symbol file w2 w1); congruence.
  - intros symbol start end_ file all_data.
    apply (works_on_read symbol start end_ file all_data w2 w1); congruence.
Qed.

Lemma update_idempotent_witness :
  exists w1 w2,
    update_all_historical fetched
      {| file := Some "data"; symbol := Some "BTC"; window := Some Daily |}
      fresh_data_h5 = (Ok tt, w1) /\
    update_all_historical fetched
      {| file := Some "data"; symbol := Some "BTC"; window := Some Daily |}
      w1 = (Ok tt, w2) /\
    files w2 = files w1 /\
    handles w1 = handles fresh_data_h5 /\
    handles w2 = handles fresh_data_h5 /\
    (forall symbol file,
       fst (get_minmax_daterange symbol file w2)
         = fst (get_minmax_daterange symbol file w1)) /\
    (forall symbol start end_ file all_data,
       fst (read_datafile symbol start end_ file all_data w2)
         = fst (read_datafile symbol start end_ file all_data w1)).
Proof.
  apply (update_idempotent_on_default_file fetched "data" "BTC" Daily
           fresh_data_h5 empty_container []);
    [left; reflexivity | reflexivity | vm_compute; reflexivity | reflexivity
    | reflexivity | reflexivity].
Defined.

End StoreProperties.

(** * Further properties of the store and of the environment *)
Section StoreMore.
Import DataHelpers AccessHdf5 AlgoEnv EnvAttributes Scenarios Notions.

(** Reads leave the files alone. *)
Lemma read_only_ret {A} (a : A) : read_only (ret a).
Proof. intros w. reflexivity. Qed.

Lemma read_only_raise {A} e : read_only (@raise world A e).
Proof. intros w. reflexivity. Qed.

Lemma read_only_lift {A} (r : result A) : read_only (lift r).
Proof. intros w. reflexivity. Qed.

Lemma read_only_print line : read_only (print line).
Proof. intros w. reflexivity. Qed.

Lemma read_only_close file m : read_only (close_file file m).
Proof. intros w. reflexivity. Qed.

Lemma read_only_bind {A B} (m : M world A) (k : A -> M world B) :
  read_only m -> (forall a, read_only (k a)) -> read_only (bind m k).
Proof.
  intros Hm Hk w. unfold bind. specialize (Hm w).
  destruct (m w) as [[a|e] s]; cbn in Hm |- *; [|exact Hm].
  now rewrite (Hk a s).
Qed.

Lemma read_only_try {A} (body handler : M world A) :
  read_only body -> read_only handler -> read_only (try_except body handler).
Proof.
  intros Hb Hh w. unfold try_except. specialize (Hb w).
  destruct (body w) as [[a|e] s]; cbn in Hb |- *; [exact Hb|].
  now rewrite (Hh s).
Qed.

Lemma read_only_with_exit {A} (body : M world A) file m :
  read_only body -> read_only (with_exit body (released file m)).
Proof.
  intros Hb w. unfold with_exit. specialize (Hb w).
  destruct (body w) as [r s]. exact Hb.
Qed.

Lemma read_only_open_r file : read_only (open_file file ModeR).
Proof.
  intros w. rewrite open_file_cases.
  destruct (can_open file ModeR w); [|reflexivity].
  destruct (files w !! file); reflexivity.
Qed.

Lemma read_only_get_timeseries f sym : read_only (get_timeseries f sym).
Proof.
  intros w. rewrite get_timeseries_cases.
  destruct (files w !! f) as [h|]; [|reflexivity].
  destruct (group sym h); reflexivity.
Qed.

Ltac read_only_step :=
  first
    [ apply read_only_ret | apply read_only_raise | apply read_only_lift
    | apply read_only_print | apply read_only_open_r
    | apply read_only_close | apply read_only_get_timeseries
    | apply read_only_with_exit
    | apply read_only_bind; [|intros ?]
    | apply read_only_try
    | progress cbv zeta
    | match goal with
      | |- read_only (match ?x with _ => _ end) => destruct x
      | |- read_only (if ?x then _ else _) => destruct x
      | |- read_only (let '(_, _) := ?x in _) => destruct x
      end ].

Lemma read_only_extent symbol file :
  read_only (get_minmax_daterange symbol file).
Proof.
  unfold get_minmax_daterange, minmax_body.
  repeat read_only_step.
Qed.

Lemma read_only_read symbol start end_ file all_data :
  read_only (read_datafile symbol start end_ file all_data).
Proof.
  unfold read_datafile, read_body.
  repeat first [apply read_only_extent | read_only_step].
Qed.

(** X6.  Reading never writes: [get_minmax_daterange], [read_datafile] and
    [read_stored_data] leave every file as it was, whatever their arguments
    and whether they return, print an error or raise. *)
Theorem reads_never_change_files symbol start end_ file all_data self w :
  files (snd (get_minmax_daterange symbol file w)) = files w /\
  files (snd (read_datafile symbol start end_ file all_data w)) = files w /\
  files (snd (read_stored_data start end_ all_data self w)) = files w.
Proof.
  split; [apply read_only_extent|]. split; [apply read_only_read|].
  revert w. change (read_only (read_stored_data start end_ all_data self)).
  unfold read_stored_data.
  repeat first [apply read_only_read | read_only_step].
Qed.

Lemma other_group_set_group sym rows h :
  (if is_btc sym then ETH (set_group sym rows h) = ETH h
   else BTC (set_group sym rows h) = BTC h).
Proof. unfold set_group. destruct (is_btc sym); reflexivity. Qed.

(** X7.  An append of new rows (at least one, in strictly ascending order
    of timestamp, all after the stored rows) to a file that holds the series
    of the symbol, and is not open for reading, returns, prints nothing and
    stores the rows of [data] behind the stored ones, as they are and in
    their order; the file is closed again, and the series of the other
    symbol and every other file stay as they were. *)
Theorem append_extends_one_series symbol sym df file w h rows :
  check_symbol symbol = Ok sym ->
  files w !! normalize file = Some h ->
  group sym h = Some rows ->
  can_open (normalize file) ModeA w = true ->
  extends rows df = true ->
  exists w' h',
    append_to_datafile symbol (IsDataFrame df) file w = (Ok tt, w') /\
    stdout w' = stdout w /\
    handles w' = handles w /\
    files w' !! normalize file = Some h' /\
    group sym h' = Some (rows ++ df)%list /\
    (if is_btc sym then ETH h' = ETH h else BTC h' = BTC h) /\
    forall name, name <> normalize file -> files w' !! name = files w !! name.
Proof.
  intros Hs Hf Hg Hc He.
  rewrite (append_to_datafile_cases _ _ _ _ _ Hs). cbv zeta.
  rewrite Hc, Hf, Hg, (extends_appendable _ _ He).
  do 2 eexists. split; [reflexivity|].
  cbn [stdout handles files set_files logged].
  split; [reflexivity|]. split; [reflexivity|].
  split; [apply lookup_insert_eq|].
  split; [apply group_set_group|]. split; [apply other_group_set_group|].
  intros name Hn. now apply lookup_insert_ne.
Qed.

Lemma append_extends_witness :
  exists w' h',
    append_to_datafile (AStr "eth") (IsDataFrame fetched) (AStr "data")
      fresh_data_h5 = (Ok tt, w') /\
    stdout w' = stdout fresh_data_h5 /\
    handles w' = handles fresh_data_h5 /\
    files w' !! normalize (AStr "data") = Some h' /\
    group "ETH" h' = Some ([] ++ fetched)%list /\
    (if is_btc "ETH" then ETH h' = ETH empty_container
     else BTC h' = BTC empty_container) /\
    forall name, name <> normalize (AStr "data") ->
      files w' !! name = files fresh_data_h5 !! name.
Proof.
  apply (append_extends_one_series (AStr "eth") "ETH" fetched (AStr "data")
           fresh_data_h5 empty_container []);
    vm_compute; reflexivity.
Defined.

(** X8.  When the file is missing, or holds no series for the symbol,
    [append_to_datafile] returns, prints ['Error appending to <file>'] and
    stores no row.  Mode ['a'] has created a missing file, without series,
    so calling again returns again and changes no file.  (A file that does
    not exist is not open.) *)
Theorem append_without_series_stores_nothing symbol sym df file w :
  check_symbol symbol = Ok sym ->
  match files w !! normalize file with
  | Some h => group sym h = None
  | None => can_open (normalize file) ModeA w = true
  end ->
  exists w',
    append_to_datafile symbol (IsDataFrame df) file w = (Ok tt, w') /\
    stdout w'
      = (stdout w ++ [("Error appending to " ++ normalize file)%string])%list /\
    files w' !! normalize file
      = Some (default {| BTC := None; ETH := None |}
                (files w !! normalize file)) /\
    (forall name, name <> normalize file ->
       files w' !! name = files w !! name) /\
    fst (append_to_datafile symbol (IsDataFrame df) file w') = Ok tt /\
    files (snd (append_to_datafile symbol (IsDataFrame df) file w'))
      = files w'.
Proof.
  intros Hs Hf. rewrite (append_to_datafile_cases _ _ _ _ _ Hs). cbv zeta.
  assert (Hempty : group sym {| BTC := None; ETH := None |} = None).
  { unfold group. destruct (is_btc sym); reflexivity. }
  destruct (files w !! normalize file) as [h|] eqn:Hl.
  - destruct (can_open (normalize file) ModeA w) eqn:Hc.
    + rewrite Hf. eexists. split; [reflexivity|].
      cbn [stdout files printed held logged default].
      split; [reflexivity|]. split; [exact Hl|]. split; [reflexivity|].
      rewrite (append_to_datafile_cases _ _ _ _ _ Hs). cbv zeta.
      change (can_open (normalize file) ModeA
                (printed ("Error appending to " ++ normalize file)
                   (held (normalize file) ModeA
                      (logged (normalize file) ModeA w))))
        with (can_open (normalize file) ModeA
                (held (normalize file) ModeA w)).
      rewrite can_open_same, Hc. cbn [files printed held logged].
      rewrite Hl, Hf. split; reflexivity.
    + eexists. split; [reflexivity|].
      cbn [stdout files printed logged default].
      split; [reflexivity|]. split; [exact Hl|]. split; [reflexivity|].
      rewrite (append_to_datafile_cases _ _ _ _ _ Hs). cbv zeta.
      change (can_open (normalize file) ModeA
                (printed ("Error appending to " ++ normalize file)
                   (logged (normalize file) ModeA w)))
        with (can_open (normalize file) ModeA w).
      rewrite Hc. split; reflexivity.
  - rewrite Hf. eexists. split; [reflexivity|].
    cbn [stdout files printed held logged set_files default].
    split; [reflexivity|]. split; [apply lookup_insert_eq|].
    split; [intros name Hn; now apply lookup_insert_ne|].
    rewrite (append_to_datafile_cases _ _ _ _ _ Hs). cbv zeta.
    match goal with
    | |- context [can_open ?f ModeA (printed ?l (held ?f ModeA ?u))] =>
        change (can_open f ModeA (printed l (held f ModeA u)))
          with (can_open f ModeA (held f ModeA w))
    end.
    rewrite can_open_same, Hf. cbn [files printed held logged set_files].
    rewrite lookup_insert_eq, Hempty. split; reflexivity.
Qed.

Lemma append_without_series_witness :
  exists w',
    append_to_datafile (AStr "BTC") (IsDataFrame fetched) (AStr "new")
      no_files = (Ok tt, w') /\
    stdout w'
      = (stdout no_files
         ++ [("Error appending to " ++ normalize (AStr "new"))%string])%list /\
    files w' !! normalize (AStr "new")
      = Some (default {| BTC := None; ETH := None |}
                (files no_files !! normalize (AStr "new"))) /\
    (forall name, name <> normalize (AStr "new") ->
       files w' !! name = files no_files !! name) /\
    fst (append_to_datafile (AStr "BTC") (IsDataFrame fetched) (AStr "new") w')
      = Ok tt /\
    files (snd (append_to_datafile (AStr "BTC") (IsDataFrame fetched)
                  (AStr "new") w')) = files w'.
Proof.
  apply (append_without_series_stores_nothing (AStr "BTC") "BTC" fetched
           (AStr "new") no_files); [reflexivity | vm_compute; reflexivity].
Defined.

Lemma fold_min_le (t : Z) (ts : list Z) (x : Z) :
  In x (t :: ts) -> (fold_right Z.min t ts <= x)%Z.
Proof.
  induction ts as [|u ts IH]; cbn.
  - intros [-> | []]. lia.
  - intros [-> | [-> | H]].
    + specialize (IH (or_introl eq_refl)). lia.
    + lia.
    + specialize (IH (or_intror H)). lia.
Qed.

Lemma filter_all {A} (f : A -> bool) (l : list A) :
  (forall x, In x l -> f x = true) -> List.filter f l = l.
Proof.
  induction l as [|x l IH]; intros H; cbn; [reflexivity|].
  rewrite (H x (or_introl eq_refl)), IH; [reflexivity|].
  intros y Hy. apply H. now right.
Qed.

(** Reading the whole extent of a series gives the series. *)
Lemma read_range_of_extent (r0 : PriceRecord) (rows : list PriceRecord) :
  exists mn mx,
    get_minmax_timeseries (r0 :: rows) = (PDatetime mn, PDatetime mx) /\
    ts_read_range (r0 :: rows) (PDatetime mn) (PDatetime mx)
      = Ok (r0 :: rows).
Proof.
  unfold get_minmax_timeseries. cbn [map].
  do 2 eexists. split; [reflexivity|]. unfold ts_read_range.
  set (ts := map timestamp rows).
  assert (Hmin := fold_min_le (timestamp r0) ts).
  assert (Hmax := fold_max_ge (timestamp r0) ts).
  destruct (Z.ltb_spec (fold_right Z.max (timestamp r0) ts)
              (fold_right Z.min (timestamp r0) ts)) as [Hlt|_].
  - specialize (Hmin _ (or_introl eq_refl)).
    specialize (Hmax _ (or_introl eq_refl)). lia.
  - f_equal. apply filter_all. intros r Hr.
    assert (Hin : In (timestamp r) (timestamp r0 :: ts)).
    { change (timestamp r0 :: ts) with (map timestamp (r0 :: rows)).
      now apply in_map. }
    specialize (Hmin _ Hin). specialize (Hmax _ Hin).
    apply andb_true_intro. split; apply Z.leb_le; lia.
Qed.

Lemma read_all_run symbol sym start end_ file w h r0 rows :
  check_symbol symbol = Ok sym ->
  files w !! normalize file = Some h ->
  group sym h = Some (r0 :: rows) ->
  can_open (normalize file) ModeR w = true ->
  read_datafile symbol start end_ file true w =
    (Ok (Some (r0 :: rows)),
     logged (normalize file) ModeR (logged (normalize file) ModeR w)).
Proof.
  intros Hs Hf Hg Hc.
  rewrite (read_datafile_run _ _ _ _ _ _ _ Hs) by discriminate.
  rewrite (read_body_all _ _ _ _ _ _ _ _ Hs Hf Hg Hc). cbv zeta.
  destruct (read_range_of_extent r0 rows) as (mn & mx & -> & ->).
  reflexivity.
Qed.

(** X9.  With [all_data] true, whatever [start] and [end] are,
    [read_datafile] returns every row of a stored series that is not empty,
    in the stored order, prints nothing, leaves no handle open and changes
    no file: the range it reads is the extent of the series
    ([get_minmax_timeseries], modelled from the spec), and every stored
    timestamp lies in it.  Only a file that was left open in mode ['a'] is
    not read: the error line is printed and [None] returned. *)
Theorem read_all_returns_every_stored_row
    symbol sym start end_ file w h rows :
  check_symbol symbol = Ok sym ->
  files w !! normalize file = Some h ->
  group sym h = Some rows ->
  rows <> [] ->
  read_datafile symbol start end_ file true w =
    if can_open (normalize file) ModeR w
    then (Ok (Some rows),
          logged (normalize file) ModeR (logged (normalize file) ModeR w))
    else (Ok None,
          printed ("Error reading from " ++ normalize file)
            (logged (normalize file) ModeR w)).
Proof.
  intros Hs Hf Hg Hne. destruct rows as [|r0 rows]; [contradiction|].
  destruct (can_open (normalize file) ModeR w) eqn:Hc.
  - apply (read_all_run _ _ _ _ _ _ _ _ _ Hs Hf Hg Hc).
  - apply (read_datafile_refused _ _ _ _ _ _ _ Hs); [discriminate|exact Hc].
Qed.

Lemma read_all_witness :
  read_datafile (AStr "BTC") PNone PNone (AStr "data") true
    (store [("data.h5", {| BTC := Some [row 1; row 2; row 3];
                           ETH := Some [] |})])
  = (Ok (Some [row 1; row 2; row 3]),
     logged "data.h5" ModeR
       (logged "data.h5" ModeR
          (store [("data.h5", {| BTC := Some [row 1; row 2; row 3];
                                 ETH := Some [] |})]))).
Proof.
  refine (read_all_returns_every_stored_row (AStr "BTC") "BTC" PNone PNone
            (AStr "data")
            (store [("data.h5", {| BTC := Some [row 1; row 2; row 3];
                                   ETH := Some [] |})])
            {| BTC := Some [row 1; row 2; row 3]; ETH := Some [] |}
            [row 1; row 2; row 3] _ _ _ _);
    [reflexivity | vm_compute; reflexivity | reflexivity | discriminate].
Defined.

(** X10.  Round trip: after an append of new rows to a file that holds the
    series and is not open, reading all data of the same symbol and file
    returns the rows stored before followed by the appended rows. *)
Theorem append_then_read_all symbol sym df file start end_ w h rows :
  check_symbol symbol = Ok sym ->
  files w !! normalize file = Some h ->
  group sym h = Some rows ->
  closed (normalize file) w = true ->
  extends rows df = true ->
  fst (read_datafile symbol start end_ file true
         (snd (append_to_datafile symbol (IsDataFrame df) file w)))
    = Ok (Some (rows ++ df)%list).
Proof.
  intros Hs Hf Hg Hcl He.
  rewrite (append_to_datafile_cases _ _ _ _ _ Hs). cbv zeta.
  rewrite (closed_can_open _ ModeA _ Hcl), Hf, Hg,
    (extends_appendable _ _ He). cbn [snd].
  assert (Hne : (rows ++ df)%list <> []).
  { destruct df; [discriminate|]. now destruct rows. }
  destruct (rows ++ df)%list as [|r0 rest] eqn:Hrows; [contradiction|].
  erewrite read_all_run; [reflexivity | exact Hs | | | ].
  - cbn [files set_files]. apply lookup_insert_eq.
  - apply group_set_group.
  - apply (closed_can_open _ ModeR _ Hcl).
Qed.

Lemma append_then_read_all_witness :
  fst (read_datafile (AStr "BTC") PNone PNone (AStr "data.h5") true
         (snd (append_to_datafile (AStr "BTC") (IsDataFrame fetched)
                 (AStr "data.h5") fresh_data_h5)))
    = Ok (Some ([] ++ fetched)%list).
Proof.
  apply (append_then_read_all (AStr "BTC") "BTC" fetched (AStr "data.h5")
           PNone PNone fresh_data_h5 empty_container []);
    [reflexivity | vm_compute; reflexivity | reflexivity | reflexivity
    | reflexivity].
Defined.

Lemma append_touches_only symbol data file w name :
  name <> normalize file ->
  files (snd (append_to_datafile symbol data file w)) !! name
    = files w !! name.
Proof.
  intros Hn.
  destruct (works_on_append symbol data file w w eq_refl eq_refl)
    as (_ & _ & H). now apply H.
Qed.

(** X11.  Whatever file the environment names, [update_all_historical]
    changes no file but ['data.h5']: it calls [append_to_datafile] without
    the [file] argument. *)
Theorem update_writes_only_data_h5 hist self w name :
  name <> "data.h5" ->
  files (snd (update_all_historical hist self w)) !! name = files w !! name.
Proof.
  intros Hn. unfold update_all_historical, bind at 1, lift.
  destruct (check_key_attributes self) as [[[f s] wd]|e]; [|reflexivity].
  unfold bind at 1.
  pose proof (read_only_extent (AStr s) (AStr f) w) as Hro.
  destruct (get_minmax_daterange (AStr s) (AStr f) w) as [[r|e] w1];
    cbn [snd] in Hro; [|cbn; now rewrite Hro].
  destruct r as [[old_min old_max]|]; [|cbn; now rewrite Hro].
  destruct (select_new_values hist old_min old_max) as [new_df|];
    [|cbn; now rewrite Hro].
  unfold bind.
  pose proof (append_touches_only (AStr s) (IsDataFrame new_df)
                (AStr "data.h5") w1 name Hn) as Hap.
  destruct (append_to_datafile (AStr s) (IsDataFrame new_df)
              (AStr "data.h5") w1) as [[[]|e] w2]; cbn [snd] in Hap |- *.
  - cbn. now rewrite Hap, Hro.
  - now rewrite Hap, Hro.
Qed.

Lemma update_writes_only_witness :
  files (snd (update_all_historical fetched env_other two_fresh_files))
    !! "other.h5" = files two_fresh_files !! "other.h5".
Proof. apply update_writes_only_data_h5. discriminate. Defined.

(** X12.  When the file of the environment is missing or holds no series
    for the symbol, [get_minmax_daterange] prints its error line and returns
    [None]; [update_all_historical] then raises [TypeError] on unpacking it,
    with that line printed, one call of [open_file] made and no file
    changed.  Where the file was there and could be opened, it stays
    open. *)
Theorem update_without_series_raises hist f s wd w :
  s = "BTC" \/ s = "ETH" ->
  match files w !! normalize (AStr f) with
  | Some h => group s h = None
  | None => True
  end ->
  exists w',
    update_all_historical hist
      {| file := Some f; symbol := Some s; window := Some wd |} w
    = (Raise TypeError, w') /\
    stdout w'
      = (stdout w ++
         [("Error getting min-max dates from to "
           ++ normalize (AStr f))%string])%list /\
    files w' = files w /\
    opened w' = (opened w ++ [(normalize (AStr f), ModeR)])%list /\
    handles w'
      = match files w !! normalize (AStr f) with
        | Some _ =>
            if can_open (normalize (AStr f)) ModeR w
            then (normalize (AStr f), ModeR) :: handles w
            else handles w
        | None => handles w
        end.
Proof.
  intros Hs Hf. pose proof (check_symbol_known s Hs) as Hc.
  unfold update_all_historical. rewrite bind_eq. unfold lift.
  cbn [check_key_attributes file symbol window]. rewrite bind_eq.
  rewrite (get_minmax_daterange_cases _ _ _ _ Hc). cbv zeta.
  destruct (can_open (normalize (AStr f)) ModeR w).
  - destruct (files w !! normalize (AStr f)) as [h|].
    + rewrite Hf. eexists. split; [reflexivity|]. repeat split.
    + eexists. split; [reflexivity|]. repeat split.
  - eexists. split; [reflexivity|].
    destruct (files w !! normalize (AStr f)); repeat split.
Qed.

Lemma update_without_series_witness :
  exists w',
    update_all_historical fetched
      {| file := Some "data"; symbol := Some "BTC"; window := Some Hourly |}
      no_files
    = (Raise TypeError, w') /\
    stdout w'
      = (stdout no_files ++
         [("Error getting min-max dates from to "
           ++ normalize (AStr "data"))%string])%list /\
    files w' = files no_files /\
    opened w' = (opened no_files ++ [(normalize (AStr "data"), ModeR)])%list /\
    handles w'
      = match files no_files !! normalize (AStr "data") with
        | Some _ =>
            if can_open (normalize (AStr "data")) ModeR no_files
            then (normalize (AStr "data"), ModeR) :: handles no_files
            else handles no_files
        | None => handles no_files
        end.
Proof.
  apply update_without_series_raises; [left; reflexivity|].
  vm_compute. exact I.
Defined.

(** X13.  The extent is read from the file of the environment, the append
    goes to ['data.h5'].  When the environment names another file that holds
    the series and can be read, there are new rows, and ['data.h5'] does not
    exist (and so is not open), the update returns having printed the error
    line of the append and then its own line of success; ['data.h5'] has
    been created without series, stays open in mode ['a'], and no row is
    stored anywhere. *)
Theorem update_reports_success_after_failed_append
    hist f s wd w h rows new_df :
  s = "BTC" \/ s = "ETH" ->
  normalize (AStr f) <> "data.h5" ->
  files w !! normalize (AStr f) = Some h ->
  group s h = Some rows ->
  select_new_values hist (fst (get_minmax_timeseries rows))
    (max_timestamp rows) = Some new_df ->
  files w !! "data.h5" = None ->
  can_open (normalize (AStr f)) ModeR w = true ->
  can_open "data.h5" ModeA w = true ->
  exists w',
    update_all_historical hist
      {| file := Some f; symbol := Some s; window := Some wd |} w
      = (Ok tt, w') /\
    stdout w'
      = (stdout w ++
         ["Error appending to data.h5";
          ("All available historical data for " ++ s ++
           " has been successfully loaded!")%string])%list /\
    files w' = <["data.h5" := {| BTC := None; ETH := None |}]> (files w) /\
    handles w' = ("data.h5", ModeA) :: handles w.
Proof.
  intros Hs Hn Hf Hg Hsel Hd Hr Ha. pose proof (check_symbol_known s Hs) as Hc.
  unfold update_all_historical. rewrite bind_eq. unfold lift.
  cbn [check_key_attributes file symbol window]. rewrite bind_eq.
  rewrite (get_minmax_daterange_cases _ _ _ _ Hc). cbv zeta.
  rewrite Hr, Hf, Hg.
  unfold max_timestamp in Hsel.
  destruct (get_minmax_timeseries rows) as [old_min old_max].
  cbn [fst snd] in Hsel. rewrite Hsel.
  rewrite bind_eq, (append_to_datafile_cases _ _ _ _ _ Hc). cbv zeta.
  change (normalize (AStr "data.h5")) with "data.h5".
  rewrite can_open_logged, Ha. cbn [files logged]. rewrite Hd.
  eexists. split; [reflexivity|].
  cbn [stdout files handles printed held logged set_files].
  split; [now rewrite <- app_assoc|]. split; reflexivity.
Qed.

Lemma update_reports_success_witness :
  exists w',
    update_all_historical fetched
      {| file := Some "other"; symbol := Some "BTC"; window := Some Daily |}
      (store [("other.h5", empty_container)])
      = (Ok tt, w') /\
    stdout w'
      = (stdout (store [("other.h5", empty_container)]) ++
         ["Error appending to data.h5";
          ("All available historical data for " ++ "BTC" ++
           " has been successfully loaded!")%string])%list /\
    files w' = <["data.h5" := {| BTC := None; ETH := None |}]>
                 (files (store [("other.h5", empty_container)])) /\
    handles w'
      = ("data.h5", ModeA) :: handles (store [("other.h5", empty_container)]).
Proof.
  apply (update_reports_success_after_failed_append fetched "other" "BTC"
           Daily (store [("other.h5", empty_container)]) empty_container []
           fetched);
    [left; reflexivity | vm_compute; discriminate | vm_compute; reflexivity
    | reflexivity | reflexivity | vm_compute; reflexivity | reflexivity
    | reflexivity].
Defined.

(** X14.  When the setter of [symbol] returns, [file] and [window] are
    unchanged and the stored symbol is [None] (only for the argument
    [None]) or ['BTC'] or ['ETH'], the upper-cased argument, which the
    symbol check of the three store functions accepts. *)
Theorem stored_symbol_is_accepted_by_store (new_symbol : atom)
    (self self' : AlgorithmEnvironment) :
  set_symbol new_symbol self = (Ok tt, self') ->
  file self' = file self /\ window self' = window self /\
  match symbol self' with
  | None => new_symbol = ANone
  | Some s =>
      (s = "BTC" \/ s = "ETH") /\
      check_symbol new_symbol = Ok s /\
      check_symbol (AStr s) = Ok s
  end.
Proof.
  destruct new_symbol as [| b | z | s0]; unfold set_symbol;
    try (unfold bind, lift, py_upper; discriminate).
  - unfold modify. intros H. injection H as <-. cbn. auto.
  - unfold bind, lift, py_upper, check_symbol, py_upper.
    destruct (String.eqb_spec (upper_string s0) "BTC") as [Hb|Hb].
    + cbn [orb]. unfold modify. intros H. injection H as <-.
      cbn. rewrite Hb. auto.
    + destruct (String.eqb_spec (upper_string s0) "ETH") as [He|He].
      * cbn [orb]. unfold modify. intros H. injection H as <-.
        cbn. rewrite He. auto.
      * unfold raise. discriminate.
Qed.

Lemma stored_symbol_witness :
  file (snd (set_symbol (AStr "eth") env_other)) = file env_other /\
  window (snd (set_symbol (AStr "eth") env_other)) = window env_other /\
  match symbol (snd (set_symbol (AStr "eth") env_other)) with
  | None => AStr "eth" = ANone
  | Some s =>
      (s = "BTC" \/ s = "ETH") /\
      check_symbol (AStr "eth") = Ok s /\
      check_symbol (AStr s) = Ok s
  end.
Proof.
  apply (stored_symbol_is_accepted_by_store (AStr "eth") env_other).
  reflexivity.
Defined.

Lemma upper_ascii_idem (c : ascii) :
  upper_ascii (upper_ascii c) = upper_ascii c.
Proof. destruct c as [[] [] [] [] [] [] [] []]; vm_compute; reflexivity. Qed.

Lemma upper_string_idem (s : string) :
  upper_string (upper_string s) = upper_string s.
Proof.
  induction s as [|c s IH]; [reflexivity|].
  cbn [upper_string]. now rewrite upper_ascii_idem, IH.
Qed.

(** X15.  The setters of [symbol] and [window] see their argument only
    through [upper()]: a string and its upper-cased form have the same
    effect; [symbol] stores the upper-cased string; and a setter that raises
    raises its own [ValueError] and leaves the environment as it was. *)
Theorem setters_ignore_case (s : string) (self : AlgorithmEnvironment) :
  set_symbol (AStr (upper_string s)) self = set_symbol (AStr s) self /\
  set_window (AStr (upper_string s)) self = set_window (AStr s) self /\
  (forall self', set_symbol (AStr s) self = (Ok tt, self') ->
     symbol self' = Some (upper_string s)) /\
  (forall e self', set_symbol (AStr s) self = (Raise e, self') ->
     e = symbol_error /\ self' = self) /\
  (forall e self', set_window (AStr s) self = (Raise e, self') ->
     e = window_error /\ self' = self).
Proof.
  unfold set_symbol, set_window, bind, lift, py_upper.
  rewrite upper_string_idem. split; [reflexivity|]. split; [reflexivity|].
  split; [|split].
  - destruct (String.eqb (upper_string s) "BTC" ||
              String.eqb (upper_string s) "ETH");
      unfold modify, raise; intros self' H; [|discriminate].
    injection H as <-. reflexivity.
  - destruct (String.eqb (upper_string s) "BTC" ||
              String.eqb (upper_string s) "ETH");
      unfold modify, raise; intros e self' H; [discriminate|].
    injection H as <- <-. auto.
  - destruct (window_of_string (upper_string s));
      unfold modify, raise; intros e self' H; [discriminate|].
    injection H as <- <-. auto.
Qed.

(** X16.  With [file], [symbol] and [window] set, the symbol ['BTC'] or
    ['ETH'] (X14), [read_stored_data] for all data does not raise: it
    returns what [read_datafile] returns for the symbol and file of the
    environment, and prints its line after it exactly when that is a
    table. *)
Theorem read_stored_data_returns start end_ (self : AlgorithmEnvironment)
    f s wd w :
  file self = Some f -> symbol self = Some s -> window self = Some wd ->
  s = "BTC" \/ s = "ETH" ->
  exists v w1,
    read_datafile (AStr s) start end_ (AStr f) true w = (Ok v, w1) /\
    read_stored_data start end_ true self w =
      (Ok v,
       match v with
       | Some _ => printed "Data has been loaded into 'data_raw'!" w1
       | None => w1
       end).
Proof.
  intros Hf Hs Hw Hsym. pose proof (check_symbol_known s Hsym) as Hc.
  unfold read_stored_data, bind at 1, lift, check_key_attributes.
  rewrite Hf, Hs, Hw. unfold bind.
  rewrite (read_datafile_run _ _ _ _ _ _ _ Hc) by discriminate.
  destruct (read_body (AStr s) s start end_ (normalize (AStr f)) true w)
    as [[[df|]|e] w1]; do 2 eexists; split; reflexivity.
Qed.

Lemma read_stored_data_witness :
  exists v w1,
    read_datafile (AStr "BTC") PNone PNone (AStr "other.h5") true
      two_fresh_files = (Ok v, w1) /\
    read_stored_data PNone PNone true env_other two_fresh_files =
      (Ok v,
       match v with
       | Some _ => printed "Data has been loaded into 'data_raw'!" w1
       | None => w1
       end).
Proof.
  apply (read_stored_data_returns PNone PNone env_other "other.h5" "BTC"
           Daily two_fresh_files); try reflexivity.
  left. reflexivity.
Defined.

(** X17.  With [symbol], [window] or [file] unset, [update_all_historical]
    and [read_stored_data] raise [ValueError] before anything is opened,
    printed or written. *)
Theorem unset_attribute_stops_before_the_store hist start end_ all_data
    (self : AlgorithmEnvironment) w :
  symbol self = None \/ window self = None \/ file self = None ->
  (exists msg,
     update_all_historical hist self w = (Raise (ValueError msg), w)) /\
  (exists msg,
     read_stored_data start end_ all_data self w
       = (Raise (ValueError msg), w)).
Proof.
  intros H.
  assert (Hc : exists msg, check_key_attributes self = Raise (ValueError msg)).
  { unfold check_key_attributes.
    destruct (symbol self), (window self), (file self);
      try (eexists; reflexivity).
    destruct H as [H | [H | H]]; discriminate. }
  destruct Hc as (msg & Hc).
  unfold update_all_historical, read_stored_data, bind, lift. rewrite Hc.
  split; exists msg; reflexivity.
Qed.

Lemma unset_attribute_witness :
  (exists msg,
     update_all_historical fetched
       {| file := Some "data.h5"; symbol := None; window := Some Daily |}
       fresh_data_h5 = (Raise (ValueError msg), fresh_data_h5)) /\
  (exists msg,
     read_stored_data PNone PNone true
       {| file := Some "data.h5"; symbol := None; window := Some Daily |}
       fresh_data_h5 = (Raise (ValueError msg), fresh_data_h5)).
Proof.
  apply unset_attribute_stops_before_the_store. left. reflexivity.
Defined.

(** X18.  [ensure_hdf5]: a string is returned as it is when its last three
    characters are ['.h5'], and with ['.h5'] appended otherwise (in no other
    case); the result ends in ['.h5'] and is a fixed point of the function.
    Every other value raises [ValueError]. *)
Theorem ensure_hdf5_contract (name : atom) :
  match name with
  | AStr s =>
      exists s',
        ensure_hdf5 (AStr s) = Ok s' /\
        last3 s' = ".h5" /\
        (s' = s \/ s' = s ++ ".h5") /\
        (s' = s <-> last3 s = ".h5") /\
        ensure_hdf5 (AStr s') = Ok s'
  | _ => ensure_hdf5 name = Raise (ValueError "Please enter a valid name")
  end.
Proof.
  destruct name as [| b | z | s]; try reflexivity.
  exists (normalize (AStr s)).
  assert (H5 : ensure_hdf5 (AStr (normalize (AStr s)))
               = Ok (normalize (AStr s))).
  { rewrite <- (normalize_idem (AStr s)) at 2. reflexivity. }
  split; [reflexivity|]. split; [apply last3_normalize|].
  split; [|split; [|exact H5]]; unfold normalize; cbn [py_str];
    destruct (String.eqb_spec (last3 s) ".h5") as [He|He]; auto.
  - split; auto.
  - split; [|contradiction].
    intros H. exfalso. apply He. rewrite <- H at 1. apply last3_app_h5.
Qed.

End StoreMore.

(** * Further properties of the Dataset *)
Section DatasetMore.
Import Backtest Pipeline Scenarios Notions Tables.

Lemma select_in {A} (mask : list bool) (l : list A) (x : A) :
  In x (select mask l) ->
  exists i, nth_error mask i = Some true /\ nth_error l i = Some x.
Proof.
  revert l. induction mask as [|b mask IH]; intros [|y l] H; cbn in H;
    try contradiction.
  destruct b.
  - destruct H as [-> | H].
    + exists 0%nat. auto.
    + destruct (IH l H) as (i & Hm & Hl). exists (S i). auto.
  - destruct (IH l H) as (i & Hm & Hl). exists (S i). auto.
Qed.

Lemma nth_error_map_seq {A} (f : nat -> A) (n i : nat) (a : A) :
  nth_error (map f (seq 0 n)) i = Some a -> a = f i /\ (i < n)%nat.
Proof.
  intros H. rewrite nth_error_map, nth_error_seq in H.
  destruct (Nat.ltb_spec i n); [|discriminate].
  cbn in H. injection H as <-. auto.
Qed.

Lemma dropna_no_nan (df : frame cell) : no_nan (dropna df).
Proof.
  intros name col x Hc Hx. unfold dropna in Hc. cbn [columns] in Hc.
  apply in_map_iff in Hc as ([n0 c0] & Heq & Hin). cbn in Heq.
  injection Heq as <- <-.
  apply select_in in Hx as (i & Hm & Hl).
  apply nth_error_map_seq in Hm as [Hm _]. symmetry in Hm.
  unfold row_complete in Hm. rewrite forallb_forall in Hm.
  specialize (Hm _ Hin). cbn in Hm. rewrite Hl in Hm.
  now apply negb_true_iff in Hm.
Qed.

Lemma select_length_le {A} (mask : list bool) (l : list A) :
  (length (select mask l) <= length (List.filter id mask))%nat.
Proof.
  revert l. induction mask as [|b mask IH]; intros [|x l]; cbn [select].
  - apply Nat.le_0_l.
  - apply Nat.le_0_l.
  - apply Nat.le_0_l.
  - specialize (IH l). cbn [List.filter]. destruct b; cbn [id length]; lia.
Qed.

Lemma select_length_eq {A} (mask : list bool) (l : list A) :
  length l = length mask ->
  length (select mask l) = length (List.filter id mask).
Proof.
  revert l. induction mask as [|b mask IH]; intros [|x l] H; cbn in *;
    try discriminate; [reflexivity|].
  injection H as H. specialize (IH l H). destruct b; cbn; lia.
Qed.

Lemma select_all_true {A} (n : nat) (l : list A) :
  (length l <= n)%nat -> select (repeat true n) l = l.
Proof.
  revert l. induction n as [|n IH]; intros [|x l] H; cbn in *;
    try reflexivity; try lia.
  rewrite IH by lia. reflexivity.
Qed.

Lemma map_seq_all_true (f : nat -> bool) (n : nat) :
  (forall i, (i < n)%nat -> f i = true) ->
  map f (seq 0 n) = repeat true n.
Proof.
  intros H. apply nth_error_ext. intros i.
  rewrite nth_error_map, nth_error_seq.
  destruct (Nat.ltb_spec i n) as [Hi|Hi]; cbn.
  - rewrite (H i Hi). symmetry. now apply nth_error_repeat.
  - symmetry. apply nth_error_None. now rewrite repeat_length.
Qed.

Lemma dropna_column_length (df : frame cell) (c : string * list cell) :
  In c (columns (dropna df)) -> (length (snd c) <= len (dropna df))%nat.
Proof.
  unfold dropna, len. cbn [columns index]. intros Hc.
  apply in_map_iff in Hc as (c0 & <- & _). cbn [snd].
  rewrite (select_length_eq _ (index df))
    by now rewrite length_map, length_seq.
  apply select_length_le.
Qed.

Lemma add_log_returns_ok (d d' : Dataset) :
  add_log_returns d = (Ok tt, d') ->
  exists r lr, raw d = Some r /\ log_returns_of r = Ok lr /\
    d' = {| raw := Some r; sample := Some lr; nlags := None |}.
Proof.
  rewrite add_log_returns_eq. destruct (raw d) as [r|]; [|discriminate].
  destruct (log_returns_of r) as [lr|e] eqn:Hlr; [|discriminate].
  intros H. injection H as <-. eauto.
Qed.

Lemma log_returns_of_no_nan r lr : log_returns_of r = Ok lr -> no_nan lr.
Proof.
  unfold log_returns_of. destruct (getitem "close" (copy r)); [|discriminate].
  intros H. injection H as <-. apply dropna_no_nan.
Qed.

Lemma set_return_lags_ok (arg : pyarg) (d d' : Dataset) :
  set_return_lags arg d = (Ok tt, d') ->
  exists k r lr data,
    arg = ArgAtom (AInt k) /\ (1 < k)%Z /\
    raw d = Some r /\ log_returns_of r = Ok lr /\
    add_lags lr (seq 0 (Z.to_nat k)) = Ok data /\
    d' = {| raw := Some r; sample := Some (dropna data); nlags := None |}.
Proof.
  destruct arg as [[| |k|]|df];
    try (unfold set_return_lags, raise; discriminate).
  destruct (Z.ltb_spec 1 k) as [Hk|Hk].
  - rewrite (set_return_lags_eq k d Hk).
    destruct (sample d) as [s|]; [|discriminate].
    destruct (Z.of_nat (len s) + 1 <? k)%Z; [discriminate|].
    destruct (raw d) as [r|]; [|discriminate].
    destruct (log_returns_of r) as [lr|e] eqn:Hlr; [|discriminate].
    destruct (add_lags lr (seq 0 (Z.to_nat k))) as [data|e] eqn:Hd;
      [|discriminate].
    intros H. injection H as <-. exists k, r, lr, data. repeat split; auto.
  - unfold set_return_lags. apply Z.ltb_ge in Hk. rewrite Hk. cbn.
    unfold raise. discriminate.
Qed.

(** X19.  Whenever [add_log_returns], [set_return_lags], the assignment of
    a table to [raw] or of an integer to [nlags] returns, [sample] is a
    table without a single NaN: each ends in [dropna]. *)
Theorem recomputed_sample_has_no_nan (arg : pyarg) (df : frame float) (k : Z)
    (d d' : Dataset) :
  add_log_returns d = (Ok tt, d') \/
  set_return_lags arg d = (Ok tt, d') \/
  set_raw (ArgFrame df) d = (Ok tt, d') \/
  set_nlags (ArgAtom (AInt k)) d = (Ok tt, d') ->
  exists s, sample d' = Some s /\ no_nan s.
Proof.
  intros [H | [H | [H | H]]].
  - apply add_log_returns_ok in H as (r & lr & _ & Hlr & ->).
    exists lr. split; [reflexivity|]. eapply log_returns_of_no_nan; eauto.
  - apply set_return_lags_ok in H
      as (k' & r & lr & data & _ & _ & _ & _ & _ & ->).
    eexists. split; [reflexivity|]. apply dropna_no_nan.
  - apply set_raw_ok in H as [[H _] | (df' & lr & _ & Hlr & ->)];
      [discriminate|].
    exists lr. split; [reflexivity|]. eapply log_returns_of_no_nan; eauto.
  - apply set_nlags_int_ok in H as (_ & r & lr & data & _ & _ & _ & ->).
    eexists. split; [reflexivity|]. apply dropna_no_nan.
Qed.

Lemma recomputed_sample_witness :
  exists s,
    sample (snd (set_raw (ArgFrame raw_with_gap) blank)) = Some s /\ no_nan s.
Proof.
  apply (recomputed_sample_has_no_nan (ArgAtom ANone) raw_with_gap 2 blank).
  right. right. left. vm_compute. reflexivity.
Defined.

(** X20.  An assignment to [nlags] that raises [ValueError] (not an [int],
    not above 1, or more lags than [len(sample) + 1]) leaves [raw], [sample]
    and [nlags] as they were: these checks come before any recomputation. *)
Theorem set_nlags_value_error_changes_nothing (arg : pyarg) (msg : string)
    (d d' : Dataset) :
  set_nlags arg d = (Raise (ValueError msg), d') -> d' = d.
Proof.
  destruct arg as [[| |k|]|df]; unfold set_nlags;
    try (unfold raise, assign_nlags, modify; congruence).
  destruct (k <=? 1)%Z eqn:Hk; [unfold raise; congruence|].
  apply Z.leb_gt in Hk. unfold bind.
  rewrite (set_return_lags_eq k d Hk).
  destruct (sample d) as [s|]; [|congruence].
  destruct (Z.of_nat (len s) + 1 <? k)%Z; [congruence|].
  destruct (raw d) as [r|]; [|congruence].
  unfold log_returns_of.
  destruct (getitem "close" (copy r)); [|congruence].
  assert (Hl : forall data range,
            add_lags data range <> Raise (ValueError msg)).
  { intros data range. revert data.
    induction range as [|i range IH]; intros data; cbn.
    - discriminate.
    - unfold add_lag.
      destruct (has_column _ data); [apply IH|].
      destruct (getitem "returns" data); [apply IH|discriminate]. }
  destruct (add_lags _ _) as [data|e] eqn:Hd.
  - unfold assign_nlags, modify. discriminate.
  - intros H. injection H as -> _. exfalso. eapply Hl; eauto.
Qed.

Lemma set_nlags_value_error_witness :
  snd (set_nlags (ArgAtom (AInt 1)) blank) = blank.
Proof.
  apply (set_nlags_value_error_changes_nothing (ArgAtom (AInt 1))
           "Must be greater than 1" blank).
  reflexivity.
Defined.

Lemma getitem_none {X} (name : string) (df : frame X) :
  has_column name df = false -> getitem name df = None.
Proof.
  unfold has_column, getitem.
  induction (columns df) as [|c cs IH]; cbn; [reflexivity|].
  destruct (String.eqb (fst c) name); cbn; [discriminate|exact IH].
Qed.

Lemma has_column_copy (name : string) (df : frame float) :
  has_column name (copy df) = has_column name df.
Proof.
  unfold has_column, copy, fmap_frame. cbn [columns].
  induction (columns df) as [|c cs IH]; cbn; [reflexivity|].
  now rewrite IH.
Qed.

(** X21.  A table without a [close] column: the assignment to [raw] raises
    [KeyError] only after [raw] has been replaced and [sample] set to its
    copy, with [nlags] kept; the constructor raises the same error. *)
Theorem set_raw_without_close_half_assigns (df : frame float) (d : Dataset) :
  has_column "close" df = false ->
  set_raw (ArgFrame df) d =
    (Raise (KeyError "close"),
     {| raw := Some df; sample := Some (copy df); nlags := nlags d |}) /\
  new (ArgFrame df) = Raise (KeyError "close").
Proof.
  intros H.
  assert (Hl : log_returns_of df = Raise (KeyError "close")).
  { unfold log_returns_of. rewrite getitem_none; [reflexivity|].
    now rewrite has_column_copy. }
  assert (Hs : forall d0, set_raw (ArgFrame df) d0 =
    (Raise (KeyError "close"),
     {| raw := Some df; sample := Some (copy df); nlags := nlags d0 |})).
  { intros d0. unfold set_raw. unfold bind at 1.
    unfold assign_raw at 1, modify at 1.
    unfold bind at 1. unfold set_sample, assign_sample at 1, modify at 1.
    rewrite add_log_returns_eq. cbn [raw]. rewrite Hl. reflexivity. }
  split; [apply Hs|]. unfold new, init, bind. rewrite Hs. reflexivity.
Qed.

Lemma set_raw_without_close_witness :
  set_raw (ArgFrame volume_only) blank =
    (Raise (KeyError "close"),
     {| raw := Some volume_only; sample := Some (copy volume_only);
        nlags := nlags blank |}) /\
  new (ArgFrame volume_only) = Raise (KeyError "close").
Proof. apply set_raw_without_close_half_assigns. reflexivity. Defined.

Lemma has_column_setitem {X} (n m : string) (v : list X) (df : frame X) :
  has_column n (setitem m v df) = has_column n df || String.eqb m n.
Proof.
  unfold setitem, has_column at 1. cbn [columns].
  destruct (has_column m df) eqn:Hm.
  - assert (H : existsb (fun c => String.eqb (fst c) n)
                  (map (fun c => if String.eqb (fst c) m then (m, v) else c)
                     (columns df)) = has_column n df).
    { unfold has_column. induction (columns df) as [|c cs IH]; cbn;
        [reflexivity|]. rewrite IH. f_equal.
      destruct (String.eqb_spec (fst c) m) as [->|]; reflexivity. }
    rewrite H. destruct (String.eqb_spec m n) as [<-|];
      [now rewrite Hm | now rewrite orb_false_r].
  - rewrite existsb_app. cbn. now rewrite orb_false_r.
Qed.

Lemma has_column_dropna (n : string) (df : frame cell) :
  has_column n (dropna df) = has_column n df.
Proof.
  unfold has_column, dropna. cbn [columns].
  induction (columns df) as [|c cs IH]; cbn; [reflexivity|]. now rewrite IH.
Qed.

Lemma add_lag_columns data i data' :
  add_lag data i = Ok data' ->
  has_column ("returns_" ++ pretty (i + 1)%nat) data' = true /\
  forall n, has_column n data = true -> has_column n data' = true.
Proof.
  unfold add_lag.
  destruct (has_column ("returns_" ++ pretty (i + 1)%nat) data) eqn:Hc.
  - intros H. injection H as <-. auto.
  - destruct (getitem "returns" data); [|discriminate].
    intros H. injection H as <-. split.
    + rewrite has_column_setitem, String.eqb_refl. apply orb_true_r.
    + intros n Hn. rewrite has_column_setitem, Hn. reflexivity.
Qed.

Lemma add_lags_columns range data data' :
  add_lags data range = Ok data' ->
  (forall n, has_column n data = true -> has_column n data' = true) /\
  forall i, In i range ->
    has_column ("returns_" ++ pretty (i + 1)%nat) data' = true.
Proof.
  revert data. induction range as [|i range IH]; intros data; cbn.
  - intros H. injection H as <-. split; [auto|]. intros i [].
  - destruct (add_lag data i) as [d1|e] eqn:H1; [|discriminate].
    intros H. apply add_lag_columns in H1 as [Hi Hk].
    destruct (IH _ H) as [Hk' Hi']. split.
    + intros n Hn. apply Hk', Hk, Hn.
    + intros j [<- | Hj]; [apply Hk', Hi | apply Hi', Hj].
Qed.

Lemma log_returns_of_columns r lr :
  log_returns_of r = Ok lr ->
  has_column "close" lr = true /\ has_column "returns" lr = true /\
  forall n, has_column n r = true -> has_column n lr = true.
Proof.
  unfold log_returns_of.
  destruct (getitem "close" (copy r)) as [close|] eqn:Hc; [|discriminate].
  intros H. injection H as <-.
  assert (Hcl : has_column "close" (copy r) = true).
  { destruct (has_column "close" (copy r)) eqn:E; [reflexivity|].
    rewrite (getitem_none _ _ E) in Hc. discriminate. }
  rewrite !has_column_dropna, !has_column_setitem, Hcl.
  split; [reflexivity|]. split; [apply orb_true_r|].
  intros n Hn. rewrite has_column_dropna, has_column_setitem,
    has_column_copy, Hn. reflexivity.
Qed.

(** X22.  When the assignment of [k] to [nlags] returns, [sample] has the
    columns [close] and [returns], every column of [raw], and the lag
    columns [returns_1] .. [returns_k]. *)
Theorem lagged_sample_has_its_columns (k : Z) (d d' : Dataset) :
  set_nlags (ArgAtom (AInt k)) d = (Ok tt, d') ->
  exists r s,
    raw d' = Some r /\ sample d' = Some s /\
    has_column "close" s = true /\ has_column "returns" s = true /\
    (forall n, has_column n r = true -> has_column n s = true) /\
    forall i, (1 <= i <= Z.to_nat k)%nat ->
      has_column ("returns_" ++ pretty i) s = true.
Proof.
  intros H.
  apply set_nlags_int_ok in H as (Hk & r & lr & data & Hr & Hlr & Hd & ->).
  exists r, (dropna data). split; [reflexivity|]. split; [reflexivity|].
  apply log_returns_of_columns in Hlr as (Hc & Hret & Hraw).
  apply add_lags_columns in Hd as [Hkeep Hlag].
  rewrite !has_column_dropna.
  split; [auto|]. split; [auto|]. split.
  - intros n Hn. rewrite has_column_dropna. auto.
  - intros i Hi. rewrite has_column_dropna.
    replace i with ((i - 1) + 1)%nat by lia. apply Hlag.
    apply in_seq. lia.
Qed.

Lemma lagged_sample_columns_witness :
  exists r s,
    raw (snd (set_nlags (ArgAtom (AInt 2))
                {| raw := Some raw_doubling;
                   sample := pipeline (Some raw_doubling) None;
                   nlags := None |})) = Some r /\
    sample (snd (set_nlags (ArgAtom (AInt 2))
                   {| raw := Some raw_doubling;
                      sample := pipeline (Some raw_doubling) None;
                      nlags := None |})) = Some s /\
    has_column "close" s = true /\ has_column "returns" s = true /\
    (forall n, has_column n r = true -> has_column n s = true) /\
    forall i, (1 <= i <= Z.to_nat 2)%nat ->
      has_column ("returns_" ++ pretty i) s = true.
Proof.
  apply (lagged_sample_has_its_columns 2
           {| raw := Some raw_doubling;
              sample := pipeline (Some raw_doubling) None;
              nlags := None |}).
  vm_compute. reflexivity.
Defined.

End DatasetMore.

(** * The states of the Dataset for tables without NaN *)
Section CleanTables.
Import Backtest Pipeline Scenarios Notions Tables.

Lemma is_nan_div_nan (x : float) :
  PrimFloat.is_nan (PrimFloat.div x PrimFloat.nan) = true.
Proof.
  assert (H : PrimFloat.div x PrimFloat.nan = PrimFloat.nan).
  { apply Prim2SF_inj. rewrite div_spec.
    change (Prim2SF PrimFloat.nan) with SpecFloat.S754_nan.
    unfold SF64div, SpecFloat.SFdiv. destruct (Prim2SF x); reflexivity. }
  rewrite H. reflexivity.
Qed.

Lemma first_return_is_nan (x : float) :
  isna (Log (PrimFloat.div x PrimFloat.nan)) = true.
Proof. cbn. now rewrite is_nan_div_nan. Qed.

Lemma returns_of_closes (p : float) (l : list float) :
  map2 log_ratio (map Num l)
    (firstn (length (map Num l)) (Num p :: map Num l))
  = returns_from p l.
Proof.
  revert p. induction l as [|x l IH]; intros p; [reflexivity|].
  cbn [map length firstn map2 log_ratio returns_from]. f_equal. apply IH.
Qed.

Lemma returns_column (l : list float) :
  map2 log_ratio (map Num l) (shift 1 (map Num l))
  = returns_from PrimFloat.nan l.
Proof. unfold shift. cbn [repeat app]. apply returns_of_closes. Qed.

Lemma returns_from_length p l : length (returns_from p l) = length l.
Proof.
  revert p. induction l as [|x l IH]; intros p; cbn; [reflexivity|].
  now rewrite IH.
Qed.

Lemma select_prefix {A} (k n s : nat) (l : list A) :
  (length l <= n)%nat ->
  select (map (fun i => (k <=? i)%nat) (seq s n)) l = skipn (k - s) l.
Proof.
  revert s l. induction n as [|n IH]; intros s [|x l] H; cbn in H |- *.
  - now rewrite skipn_nil.
  - lia.
  - now rewrite skipn_nil.
  - destruct (Nat.leb_spec k s) as [Hks|Hks].
    + rewrite IH by lia. replace (k - s)%nat with 0%nat by lia.
      replace (k - S s)%nat with 0%nat by lia. reflexivity.
    + rewrite IH by lia. replace (k - s)%nat with (S (k - S s)) by lia.
      reflexivity.
Qed.

Lemma dropna_prefix (k : nat) (df : frame cell) :
  (forall c, In c (columns df) -> (length (snd c) <= len df)%nat) ->
  (forall i, (i < len df)%nat -> row_complete df i = (k <=? i)%nat) ->
  dropna df = drop_rows k df.
Proof.
  intros Hlen Hrow. unfold dropna, drop_rows.
  assert (Hm : map (row_complete df) (seq 0 (len df))
               = map (fun i => (k <=? i)%nat) (seq 0 (len df))).
  { apply map_ext_in. intros i Hi. apply Hrow. apply in_seq in Hi. lia. }
  rewrite Hm. f_equal.
  - rewrite select_prefix by reflexivity. now rewrite Nat.sub_0_r.
  - apply map_ext_in. intros c Hc. f_equal.
    rewrite select_prefix by now apply Hlen. now rewrite Nat.sub_0_r.
Qed.

Lemma cell_ok_clean (i : nat) (c : string * list cell) :
  Forall (fun v => isna v = false) (snd c) -> cell_ok i c = true.
Proof.
  intros H. unfold cell_ok. destruct (nth_error (snd c) i) as [v|] eqn:Hv;
    [|reflexivity].
  apply nth_error_In in Hv. rewrite Forall_forall in H.
  apply negb_true_iff, H. now apply list_elem_of_In.
Qed.

Lemma getitem_in {X} (name : string) (df : frame X) (col : list X) :
  getitem name df = Some col -> In (name, col) (columns df).
Proof.
  unfold getitem. induction (columns df) as [|c cs IH]; cbn; [discriminate|].
  destruct (String.eqb_spec (fst c) name) as [<-|].
  - intros H. injection H as <-. left. now destruct c.
  - intros H. right. now apply IH.
Qed.

Lemma getitem_copy (name : string) (r : frame float) :
  getitem name (copy r) = option_map (map Num) (getitem name r).
Proof.
  unfold getitem, copy, fmap_frame. cbn [columns].
  induction (columns r) as [|c cs IH]; cbn; [reflexivity|].
  destruct (String.eqb (fst c) name); [reflexivity|exact IH].
Qed.

Lemma setitem_new {X} (m : string) (v : list X) (df : frame X) :
  has_column m df = false ->
  setitem m v df = {| index := index df; columns := columns df ++ [(m, v)] |}.
Proof. intros H. unfold setitem. now rewrite H. Qed.

Lemma getitem_app_l {X} (name : string) idx (cs cs' : list (string * list X))
    col :
  getitem name {| index := idx; columns := cs |} = Some col ->
  getitem name {| index := idx; columns := cs ++ cs' |} = Some col.
Proof.
  unfold getitem. cbn [columns]. induction cs as [|c cs IH]; cbn;
    [discriminate|].
  destruct (String.eqb (fst c) name); [auto|exact IH].
Qed.

Lemma getitem_app_r {X} (name : string) idx (cs : list (string * list X))
    col :
  has_column name {| index := idx; columns := cs |} = false ->
  getitem name {| index := idx; columns := cs ++ [(name, col)] |} = Some col.
Proof.
  unfold getitem, has_column. cbn [columns]. induction cs as [|c cs IH]; cbn.
  - now rewrite String.eqb_refl.
  - destruct (String.eqb (fst c) name); cbn; [discriminate|exact IH].
Qed.

(** What [all_complete] gives for the columns of the copy. *)
Lemma copy_columns_clean (r : frame float) (c : string * list cell) :
  all_complete r = true -> In c (columns (copy r)) ->
  length (snd c) = len r /\ Forall (fun v => isna v = false) (snd c).
Proof.
  unfold all_complete, copy, fmap_frame. cbn [columns].
  rewrite forallb_forall. intros H Hc.
  apply in_map_iff in Hc as (c0 & <- & Hc0). cbn [snd].
  specialize (H c0 Hc0). apply andb_prop in H as [Hl Hn].
  apply Nat.eqb_eq in Hl. rewrite length_map. split; [exact Hl|].
  rewrite forallb_forall in Hn. apply Forall_forall. intros v Hv.
  apply list_elem_of_In, in_map_iff in Hv as (x & <- & Hx).
  cbn. apply negb_true_iff, Hn, Hx.
Qed.

Lemma valid_ratios_tail (x : float) (rest : list float) :
  valid_ratios (x :: rest) = true ->
  Forall (fun v => isna v = false) (returns_from x rest).
Proof.
  cbn. rewrite forallb_forall. intros H. apply Forall_forall. intros v Hv.
  apply negb_true_iff, H. now apply list_elem_of_In.
Qed.

Lemma with_returns_rows (r : frame float) (l : list float) :
  all_complete r = true ->
  has_column "returns" r = false ->
  getitem "close" r = Some l ->
  valid_ratios l = true ->
  (forall c, In c (columns (with_returns r l)) ->
     (length (snd c) <= len (with_returns r l))%nat) /\
  (forall i, (i < len (with_returns r l))%nat ->
     row_complete (with_returns r l) i = (1 <=? i)%nat).
Proof.
  intros Hall Hfree Hclose Hvalid.
  assert (Hl : length l = len r).
  { pose proof (getitem_copy "close" r) as Hc. rewrite Hclose in Hc.
    apply getitem_in in Hc.
    destruct (copy_columns_clean r _ Hall Hc) as [Hlen _].
    cbn [snd] in Hlen. now rewrite length_map in Hlen. }
  unfold with_returns. rewrite setitem_new by now rewrite has_column_copy.
  unfold len. cbn [index columns]. split.
  - intros c Hc. apply in_app_or in Hc as [Hc | [<- | []]].
    + destruct (copy_columns_clean r c Hall Hc) as [Hlen _].
      unfold len in Hlen. change (index (copy r)) with (index r). lia.
    + cbn [snd]. rewrite returns_from_length.
      change (index (copy r)) with (index r). unfold len in Hl. lia.
  - intros i Hi. unfold row_complete. cbn [columns]. rewrite forallb_app.
    assert (Hbase : forallb (cell_ok i) (columns (copy r)) = true).
    { apply forallb_forall. intros c Hc. apply cell_ok_clean.
      now destruct (copy_columns_clean r c Hall Hc). }
    change (forallb (cell_ok i) (columns (copy r)) &&
            forallb (cell_ok i) [("returns", returns_from PrimFloat.nan l)]
            = (1 <=? i)%nat).
    rewrite Hbase. cbn [forallb andb]. rewrite andb_true_r.
    change (index (copy r)) with (index r) in Hi. unfold len in Hl.
    destruct l as [|x rest]; [cbn in Hl; lia|].
    unfold cell_ok. cbn [snd returns_from].
    destruct i as [|j]; cbn [nth_error].
    + now rewrite first_return_is_nan.
    + destruct (nth_error (returns_from x rest) j) as [v|] eqn:Hv;
        [|reflexivity].
      apply nth_error_In in Hv.
      pose proof (valid_ratios_tail x rest Hvalid) as Hf.
      rewrite Forall_forall in Hf. apply list_elem_of_In in Hv.
      now rewrite (Hf v Hv).
Qed.

Lemma clean_log_returns (r : frame float) (l : list float) :
  all_complete r = true ->
  has_column "returns" r = false ->
  getitem "close" r = Some l ->
  valid_ratios l = true ->
  log_returns_of r = Ok (drop_rows 1 (with_returns r l)) /\
  spec_log_returns r = Some (drop_rows 1 (with_returns r l)).
Proof.
  intros Hall Hfree Hclose Hvalid.
  destruct (with_returns_rows r l Hall Hfree Hclose Hvalid) as [Hlen Hrow].
  unfold log_returns_of, spec_log_returns.
  rewrite getitem_copy, Hclose. cbn [option_map]. rewrite returns_column.
  fold (with_returns r l). split; [|reflexivity].
  f_equal. now apply dropna_prefix.
Qed.

Lemma lag_name_inj (a b : nat) :
  "returns_" ++ pretty a = "returns_" ++ pretty b -> a = b.
Proof.
  intros H. cbn in H. injection H as H. now apply pretty_nat_inj in H.
Qed.

Lemma lag_name_not_returns (a : nat) :
  String.eqb ("returns_" ++ pretty a) "returns" = false.
Proof. apply String.eqb_neq. cbn. intros H. discriminate H. Qed.

Lemma has_column_app {X} (n : string) idx (cs cs' : list (string * list X)) :
  has_column n {| index := idx; columns := cs ++ cs' |}
  = has_column n {| index := idx; columns := cs |}
    || has_column n {| index := idx; columns := cs' |}.
Proof. unfold has_column. cbn [columns]. apply existsb_app. Qed.

Lemma add_lags_fresh (R : list cell) (m s : nat) (data : frame cell) :
  getitem "returns" data = Some R ->
  (forall i, (s < i <= s + m)%nat ->
     has_column ("returns_" ++ pretty i) data = false) ->
  add_lags data (seq s m)
  = Ok {| index := index data;
          columns := columns data ++ lag_columns R s m |}.
Proof.
  revert s data. induction m as [|m IH]; intros s data Hret Hfree.
  - cbn. unfold lag_columns. cbn. rewrite app_nil_r. now destruct data.
  - cbn [seq add_lags]. unfold add_lag.
    replace (s + 1)%nat with (S s) by lia.
    rewrite (Hfree (S s)) by lia. rewrite Hret.
    rewrite setitem_new by (apply Hfree; lia).
    rewrite IH.
    + cbn [index columns]. unfold lag_columns. cbn [seq map].
      now rewrite <- app_assoc.
    + destruct data as [idx cs]. cbn [index columns] in *.
      now apply getitem_app_l.
    + intros i Hi. destruct data as [idx cs]. cbn [index columns] in *.
      rewrite has_column_app, Hfree by lia.
      unfold has_column. cbn. rewrite orb_false_r.
      apply String.eqb_neq. intros H. apply lag_name_inj in H. lia.
Qed.

Lemma fold_setitem_fresh (R : list cell) (m s : nat) (data : frame cell) :
  (forall i, (s < i <= s + m)%nat ->
     has_column ("returns_" ++ pretty i) data = false) ->
  fold_left (fun d i => setitem ("returns_" ++ pretty i) (shift i R) d)
    (seq (S s) m) data
  = {| index := index data;
       columns := columns data ++ lag_columns R s m |}.
Proof.
  revert s data. induction m as [|m IH]; intros s data Hfree.
  - cbn. unfold lag_columns. cbn. rewrite app_nil_r. now destruct data.
  - cbn [seq fold_left]. rewrite setitem_new by (apply Hfree; lia).
    rewrite IH.
    + cbn [index columns]. unfold lag_columns. cbn [seq map].
      now rewrite <- app_assoc.
    + intros i Hi. destruct data as [idx cs]. cbn [index columns] in *.
      rewrite has_column_app, Hfree by lia.
      unfold has_column. cbn. rewrite orb_false_r.
      apply String.eqb_neq. intros H. apply lag_name_inj in H. lia.
Qed.

Lemma forallb_seq_le (i k : nat) :
  forallb (fun j => (j <=? i)%nat) (seq 1 k) = (k <=? i)%nat.
Proof.
  induction k as [|k IH]; [reflexivity|].
  rewrite seq_S, forallb_app, IH. cbn [forallb Nat.add].
  rewrite andb_true_r.
  destruct (Nat.leb_spec k i), (Nat.leb_spec (S k) i); cbn; try reflexivity;
    lia.
Qed.

Lemma shift_length (j : nat) (R : list cell) : length (shift j R) = length R.
Proof.
  unfold shift. rewrite firstn_length_le; [reflexivity|].
  rewrite length_app. lia.
Qed.

Lemma cell_ok_shift (R : list cell) (i j : nat) (name : string) :
  Forall (fun v => isna v = false) R ->
  (i < length R)%nat ->
  cell_ok i (name, shift j R) = (j <=? i)%nat.
Proof.
  intros Hclean Hi. unfold cell_ok, shift. cbn [snd].
  rewrite nth_error_firstn.
  destruct (Nat.ltb_spec i (length R)) as [_|]; [|lia].
  destruct (Nat.leb_spec j i) as [Hji|Hji].
  - rewrite nth_error_app2 by (rewrite repeat_length; lia).
    rewrite repeat_length.
    destruct (nth_error R (i - j)) as [v|] eqn:Hv; [|reflexivity].
    apply nth_error_In, list_elem_of_In in Hv. rewrite Forall_forall in Hclean.
    now rewrite (Hclean v Hv).
  - rewrite nth_error_app1 by (rewrite repeat_length; lia).
    rewrite nth_error_repeat by lia. reflexivity.
Qed.

Lemma has_column_drop_rows {X} (n : string) (k : nat) (df : frame X) :
  has_column n (drop_rows k df) = has_column n df.
Proof.
  unfold has_column, drop_rows. cbn [columns].
  induction (columns df) as [|c cs IH]; cbn; [reflexivity|]. now rewrite IH.
Qed.

Lemma Forall_skipn_clean (n : nat) (l : list cell) :
  Forall (fun v => isna v = false) l ->
  Forall (fun v => isna v = false) (skipn n l).
Proof.
  revert l. induction n as [|n IH]; intros [|x l] H; cbn; auto.
  apply IH. now inversion H.
Qed.

Lemma forallb_map_seq (f : string * list cell -> bool)
    (g : nat -> string * list cell) (h : nat -> bool) (range : list nat) :
  (forall j, f (g j) = h j) ->
  forallb f (map g range) = forallb h range.
Proof.
  intros H. induction range as [|j range IH]; cbn; [reflexivity|].
  now rewrite H, IH.
Qed.

Lemma later_returns_clean (l : list float) :
  valid_ratios l = true ->
  Forall (fun v => isna v = false) (later_returns l).
Proof.
  unfold later_returns. destruct l as [|x rest]; [intros _; constructor|].
  cbn [returns_from skipn]. apply valid_ratios_tail.
Qed.

Section OneCleanTable.
Variables (r : frame float) (l : list float) (k : nat).
Hypothesis Hall : all_complete r = true.
Hypothesis Hfree : names_free k r = true.
Hypothesis Hclose : getitem "close" r = Some l.
Hypothesis Hvalid : valid_ratios l = true.

Lemma no_returns_column : has_column "returns" r = false.
Proof.
  unfold names_free in Hfree. apply andb_prop in Hfree as [H _].
  now apply negb_true_iff in H.
Qed.

Lemma no_lag_column (i : nat) :
  (0 < i <= 0 + k)%nat -> has_column ("returns_" ++ pretty i) r = false.
Proof.
  intros Hi. unfold names_free in Hfree. apply andb_prop in Hfree as [_ H].
  rewrite forallb_forall in H. apply negb_true_iff, H, in_seq. lia.
Qed.

Lemma close_length : length l = len r.
Proof.
  pose proof (getitem_copy "close" r) as Hc. rewrite Hclose in Hc.
  apply getitem_in in Hc.
  destruct (copy_columns_clean r _ Hall Hc) as [Hlen _].
  cbn [snd] in Hlen. now rewrite length_map in Hlen.
Qed.

Lemma log_returns_table_columns :
  log_returns_table r l =
  {| index := skipn 1 (index r);
     columns := map (fun c => (fst c, skipn 1 (snd c))) (columns (copy r))
                ++ [("returns", later_returns l)] |}.
Proof.
  unfold log_returns_table, with_returns.
  rewrite setitem_new by (rewrite has_column_copy; apply no_returns_column).
  unfold drop_rows. cbn [index columns]. now rewrite map_app.
Qed.

Lemma log_returns_table_len : len (log_returns_table r l) = (len r - 1)%nat.
Proof.
  rewrite log_returns_table_columns. unfold len. cbn [index].
  now rewrite length_skipn.
Qed.

Lemma later_returns_length : length (later_returns l) = (len r - 1)%nat.
Proof.
  unfold later_returns. rewrite length_skipn, returns_from_length.
  now rewrite close_length.
Qed.

Lemma log_returns_table_getitem :
  getitem "returns" (log_returns_table r l) = Some (later_returns l).
Proof.
  rewrite log_returns_table_columns. apply getitem_app_r.
  pose proof (has_column_drop_rows "returns" 1 (copy r)) as H.
  rewrite has_column_copy, no_returns_column in H. exact H.
Qed.

Lemma log_returns_table_fresh (i : nat) :
  (0 < i <= 0 + k)%nat ->
  has_column ("returns_" ++ pretty i) (log_returns_table r l) = false.
Proof.
  intros Hi. unfold log_returns_table, with_returns.
  rewrite has_column_drop_rows, has_column_setitem, has_column_copy.
  rewrite (no_lag_column i Hi). cbn [orb].
  rewrite String.eqb_sym. apply lag_name_not_returns.
Qed.

Lemma add_lags_clean :
  add_lags (log_returns_table r l) (seq 0 k) = Ok (with_lags r l k).
Proof.
  apply add_lags_fresh.
  - apply log_returns_table_getitem.
  - apply log_returns_table_fresh.
Qed.

Lemma spec_lag_columns_clean :
  spec_lag_columns k (log_returns_table r l) = with_lags r l k.
Proof.
  unfold spec_lag_columns. rewrite log_returns_table_getitem.
  apply fold_setitem_fresh, log_returns_table_fresh.
Qed.

Lemma with_lags_rows :
  (forall c, In c (columns (with_lags r l k)) ->
     (length (snd c) <= len (with_lags r l k))%nat) /\
  (forall i, (i < len (with_lags r l k))%nat ->
     row_complete (with_lags r l k) i = (k <=? i)%nat).
Proof.
  pose proof (later_returns_clean l Hvalid) as HR.
  pose proof later_returns_length as HlR.
  assert (Hlen : len (with_lags r l k) = (len r - 1)%nat).
  { unfold with_lags, len. cbn [index]. apply log_returns_table_len. }
  assert (Hbase : forall c,
            In c (columns (log_returns_table r l)) ->
            length (snd c) = (len r - 1)%nat /\
            Forall (fun v => isna v = false) (snd c)).
  { rewrite log_returns_table_columns. cbn [columns]. intros c Hc.
    apply in_app_or in Hc as [Hc | [<- | []]].
    - apply in_map_iff in Hc as (c0 & <- & Hc0). cbn [snd].
      destruct (copy_columns_clean r c0 Hall Hc0) as [Hl Hn].
      split; [rewrite length_skipn; lia | now apply Forall_skipn_clean].
    - cbn [snd]. auto. }
  rewrite Hlen. split.
  - unfold with_lags. cbn [columns]. intros c Hc.
    apply in_app_or in Hc as [Hc | Hc].
    + destruct (Hbase c Hc) as [-> _]. lia.
    + unfold lag_columns in Hc. apply in_map_iff in Hc as (j & <- & _).
      cbn [snd]. rewrite shift_length, HlR. lia.
  - intros i Hi. unfold row_complete, with_lags. cbn [columns].
    change (forallb (cell_ok i)
              (columns (log_returns_table r l)
               ++ lag_columns (later_returns l) 0 k) = (k <=? i)%nat).
    rewrite forallb_app.
    assert (H1 : forallb (cell_ok i) (columns (log_returns_table r l)) = true).
    { apply forallb_forall. intros c Hc. apply cell_ok_clean.
      now destruct (Hbase c Hc). }
    rewrite H1. cbn [andb]. unfold lag_columns.
    rewrite <- (forallb_seq_le i k). apply forallb_map_seq. intros j.
    apply cell_ok_shift; [exact HR | lia].
Qed.

Lemma clean_lagged :
  lagged_of (Z.of_nat k) r = Ok (drop_rows k (with_lags r l k)) /\
  spec_lagged k r = Some (drop_rows k (with_lags r l k)).
Proof.
  destruct (clean_log_returns r l Hall no_returns_column Hclose Hvalid)
    as [Hlr Hspec].
  fold (log_returns_table r l) in Hlr, Hspec.
  unfold lagged_of, spec_lagged. rewrite Hlr, Hspec, Nat2Z.id.
  rewrite add_lags_clean, spec_lag_columns_clean. split; [|reflexivity].
  f_equal. destruct with_lags_rows as [Hlen Hrow]. now apply dropna_prefix.
Qed.

End OneCleanTable.

Lemma new_frame_ok (r : frame float) (lr : frame cell) :
  log_returns_of r = Ok lr ->
  new (ArgFrame r) = Ok {| raw := Some r; sample := Some lr; nlags := None |}.
Proof.
  intros H. unfold new, init, bind, set_raw, bind.
  unfold assign_raw, set_sample, assign_sample, modify.
  rewrite add_log_returns_eq. cbn [raw]. rewrite H. reflexivity.
Qed.

Lemma drop_rows_len {X} (k : nat) (df : frame X) :
  len (drop_rows k df) = (len df - k)%nat.
Proof. unfold len, drop_rows. cbn [index]. apply length_skipn. Qed.

(** X23.  For a table without NaN, whose columns are as long as the index,
    which has none of the columns the pipeline adds and whose consecutive
    closes have a defined log-return, and for 1 < k <= len(raw): the
    constructor returns with [sample] the copy of [raw] with the [returns]
    column and without the first row, the LogReturns state of the
    specification, of len(raw) - 1 rows; the assignment of [k] to [nlags]
    then returns with [raw] kept, [nlags] = k and [sample] the Lagged(k)
    state: the lag columns added and k more rows dropped from the front. *)
Theorem clean_table_states (r : frame float) (l : list float) (k : Z) :
  all_complete r = true ->
  names_free (Z.to_nat k) r = true ->
  getitem "close" r = Some l ->
  valid_ratios l = true ->
  (1 < k <= Z.of_nat (len r))%Z ->
  exists d d',
    new (ArgFrame r) = Ok d /\
    sample d = Some (log_returns_table r l) /\
    sample d = spec_log_returns r /\
    option_map len (sample d) = Some (len r - 1)%nat /\
    set_nlags (ArgAtom (AInt k)) d = (Ok tt, d') /\
    raw d' = Some r /\ nlags d' = Some k /\
    sample d' = Some (drop_rows (Z.to_nat k) (with_lags r l (Z.to_nat k))) /\
    sample d' = spec_lagged (Z.to_nat k) r /\
    option_map len (sample d') = Some (len r - 1 - Z.to_nat k)%nat.
Proof.
  intros Hall Hfree Hclose Hvalid Hk.
  pose proof (no_returns_column r (Z.to_nat k) Hfree) as Hnr.
  destruct (clean_log_returns r l Hall Hnr Hclose Hvalid) as [Hlr Hspec].
  destruct (clean_lagged r l (Z.to_nat k) Hall Hfree Hclose Hvalid)
    as [Hlag Hspecl].
  rewrite Z2Nat.id in Hlag by lia.
  assert (Hlen : len (drop_rows 1 (with_returns r l)) = (len r - 1)%nat).
  { now apply (log_returns_table_len r l (Z.to_nat k)). }
  do 2 eexists. split; [apply (new_frame_ok r _ Hlr)|]. cbn [sample].
  split; [reflexivity|]. split; [now rewrite Hspec|].
  split; [cbn [option_map]; now rewrite Hlen|].
  unfold set_nlags.
  destruct (Z.leb_spec k 1) as [|_]; [lia|].
  unfold bind. rewrite set_return_lags_eq by lia. cbn [sample raw].
  rewrite Hlen.
  destruct (Z.ltb_spec (Z.of_nat (len r - 1) + 1) k) as [|_]; [lia|].
  unfold lagged_of in Hlag. rewrite Hlr in Hlag |- *.
  destruct (add_lags (drop_rows 1 (with_returns r l)) (seq 0 (Z.to_nat k)))
    as [data|e]; [|discriminate].
  assert (Hd : dropna data
               = drop_rows (Z.to_nat k) (with_lags r l (Z.to_nat k)))
    by congruence.
  rewrite Hd. unfold assign_nlags, modify.
  split; [reflexivity|]. cbn [raw sample nlags option_map].
  split; [reflexivity|]. split; [reflexivity|]. split; [reflexivity|].
  split; [now rewrite Hspecl|].
  rewrite drop_rows_len. do 2 f_equal.
  unfold with_lags, len. cbn [index]. exact Hlen.
Qed.

Lemma clean_table_witness :
  exists d d',
    new (ArgFrame ohlcv_table) = Ok d /\
    sample d = Some (log_returns_table ohlcv_table ohlcv_closes) /\
    sample d = spec_log_returns ohlcv_table /\
    option_map len (sample d) = Some (len ohlcv_table - 1)%nat /\
    set_nlags (ArgAtom (AInt 3)) d = (Ok tt, d') /\
    raw d' = Some ohlcv_table /\ nlags d' = Some 3%Z /\
    sample d'
      = Some (drop_rows (Z.to_nat 3)
                (with_lags ohlcv_table ohlcv_closes (Z.to_nat 3))) /\
    sample d' = spec_lagged (Z.to_nat 3) ohlcv_table /\
    option_map len (sample d')
      = Some (len ohlcv_table - 1 - Z.to_nat 3)%nat.
Proof.
  apply (clean_table_states ohlcv_table ohlcv_closes 3);
    try (vm_compute; reflexivity).
  vm_compute. split; [reflexivity|]. discriminate.
Defined.

End CleanTables.
